(** * The assumption-driven test selector of dashboard_anova.py

    A shallow embedding of [perform_anova_for_variable], of the
    per-variable analysis loop of the dashboard, of [load_data], of the
    display of a result and of the script as a whole.

    The statistics and plotting libraries (statsmodels, scipy, seaborn,
    matplotlib) are not part of the program: they are an interface
    ([StatsLib]) whose routines are functions of their arguments that
    either return a value or raise.  Python floats are the kernel's binary64
    floats, so [p >= 0.05] is [0.05 <=? p] and a NaN compares false.  The
    [results] dictionary is a [gmap] from keys to values; the nested
    [results["plots"]] dictionary is an object of its own, referenced from
    [results]. *)

From Stdlib Require Import Floats.PrimFloat.
From Stdlib Require Floats.FloatAxioms.
From stdpp Require Import gmap strings list fin_maps sorting.

#[local] Set Warnings "-clear-no-such-hyp".

(** ** Data *)

(** A factor level: the value of a categorical cell (text; a discrete
    numeric column converted with [astype('category')] behaves the same
    for [unique], [nunique] and [==]). *)
Definition level := string.

(** One row of the two-column frame [df[[var_cat, col_preco]]]: the factor
    cell ([None] when missing) and the response, a float (missing = NaN). *)
Definition row : Type := option level * float.
Definition frame := list row.

(** [str(e)] of a caught exception. *)
Definition exn := string.

(** One line of the table returned by [anova_lm]. *)
Record anova_row := {
  sum_sq : float;
  df : float;
  F : float;
  PR_F : float          (* column 'PR(>F)' *)
}.

(** The table: its index labels with their rows, in order. *)
Definition anova_table := list (string * anova_row).

(** The result object of [scipy.stats.anderson]. *)
Record AndersonResult := {
  statistic : float;
  critical_values : list float;
  significance_level : list float
}.

(** Handle of a matplotlib figure. *)
Definition figure := nat.

(** The values stored in [results]. *)
Inductive value :=
| VStr (s : string)
| VPlots                              (* reference to the nested plots dict *)
| VTable (t : anova_table)
| VNum (p : option float)             (* a float or None *)
| VInt (n : Z)
| VPair (stat p : float)              (* (statistic, p-value) *)
| VAnderson (r : AndersonResult)
| VBool (b : bool).

(** The calls into the statistics library, as they are logged. *)
Inductive stat_call :=
| CallOls (formula : string) (data : frame)
| CallAnovaLm
| CallShapiro (x : list float)
| CallAnderson (x : list float)
| CallLevene (groups : list (list float))
| CallKruskal (groups : list (list float)).

(** The drawing statements. *)
Inductive plot_call :=
| Subplots (nrows ncols : nat)
| Histplot (x : list float)
| QQplot (x : list float)
| AxText (s : string)
| SetTitle (s : string)
| TightLayout
| Boxplot (x y : string) (data : frame) (order : option (list level))
| Setp (rotate : bool).

(** ** The library interface *)

Record StatsLib := {
  fitted : Type;                                       (* a fitted model *)
  ols_fit : string -> frame -> exn + fitted;           (* ols(formula, data).fit() *)
  resid : fitted -> list float;                        (* modelo.resid *)
  anova_lm : fitted -> exn + anova_table;              (* sm.stats.anova_lm(modelo, typ=2) *)
  shapiro : list float -> exn + (float * float);
  anderson : list float -> exn + AndersonResult;
  levene : list (list float) -> exn + (float * float);
  kruskal : list (list float) -> exn + (float * float);
  groupby_median_order : frame -> exn + list level;    (* groupby().median().sort_values().index *)
  draw : plot_call -> option exn                       (* Some e: the statement raises e *)
}.

(** ** pandas operations on the two-column frame *)

Definition notna (r : row) : bool :=
  match r.1 with
  | Some _ => negb (is_nan r.2)
  | None => false
  end.

(** [df_var.dropna(inplace=True)]. *)
Definition dropna (d : frame) : frame := List.filter notna d.

(** The factor column without its missing cells. *)
Definition factor_values (d : frame) : list level :=
  omap fst d.

(** [Series.unique()]: the distinct values in order of first appearance. *)
Fixpoint unique_from (seen : list level) (l : list level) : list level :=
  match l with
  | [] => []
  | x :: t =>
      if bool_decide (x ∈ seen) then unique_from seen t
      else x :: unique_from (x :: seen) t
  end.

Definition unique (d : frame) : list level := unique_from [] (factor_values d).

(** [len(x)], a Python integer. *)
Definition len {A} (l : list A) : Z := Z.of_nat (length l).

(** [Series.nunique()]. *)
Definition nunique (d : frame) : Z := len (unique d).

(** [df_var[col_preco][df_var[var_cat] == categoria]]. *)
Definition has_level (c : level) (r : row) : bool :=
  match r.1 with
  | Some l => bool_decide (l = c)
  | None => false
  end.

Definition select_level (d : frame) (c : level) : list float :=
  snd <$> List.filter (has_level c) d.

(** [Series.dropna()] on a column of floats. *)
Definition dropna_values (x : list float) : list float :=
  List.filter (fun v => negb (is_nan v)) x.

(** Line 124: one group of responses per level of the factor. *)
Definition grupos (d : frame) : list (list float) :=
  (fun c => dropna_values (select_level d c)) <$> unique d.

(** Line 125: the groups Levene's test can use. *)
Definition grupos_validos (d : frame) : list (list float) :=
  List.filter (fun g => bool_decide (2 ≤ len g)%Z) (grupos d).

(** Line 73: the guard of the selector. *)
Definition insufficient (d : frame) : bool :=
  bool_decide (nunique d < 2)%Z || bool_decide (len d < 10)%Z.

Definition insufficient_msg : string :=
  "Dados insuficientes ou poucos níveis para análise após limpeza."%string.

(** ** Effects: the [results] dictionary, the library log, exceptions *)

(** What outlives one run: the calls made into the libraries and pyplot's
    global figure numbering. *)
Record world := {
  stat_log : list stat_call;
  plot_log : list plot_call;
  next_fig : figure
}.

(** The state of one run: the two dictionaries and the world. *)
Record state := {
  results : gmap string value;
  plots : gmap string figure;
  env : world
}.

(** A statement either completes with a value or raises; the state it
    leaves is kept in both cases. *)
Definition M (A : Type) : Type := state -> (exn + A) * state.

Definition raise {A} (e : exn) : M A := fun s => (inl e, s).

#[global] Instance M_ret : MRet M := fun A a s => (inr a, s).

#[global] Instance M_bind : MBind M := fun A B k c s =>
  match c s with
  | (inr a, s') => k a s'
  | (inl e, s') => (inl e, s')
  end.

(** [try: c except Exception as e: h e]. *)
Definition try_except {A} (c : M A) (h : exn -> M A) : M A :=
  fun s =>
    match c s with
    | (inl e, s') => h e s'
    | r => r
    end.

(** [results[k] = v]. *)
Definition setitem (k : string) (v : value) : M unit :=
  fun s => (inr tt, {| results := <[k := v]> (results s); plots := plots s; env := env s |}).

(** [results["plots"][k] = fig]. *)
Definition setplot (k : string) (fig : figure) : M unit :=
  fun s => (inr tt, {| results := results s; plots := <[k := fig]> (plots s); env := env s |}).

Definition log_stat (c : stat_call) (w : world) : world :=
  {| stat_log := stat_log w ++ [c]; plot_log := plot_log w; next_fig := next_fig w |}.

Definition log_plot (p : plot_call) (w : world) : world :=
  {| stat_log := stat_log w; plot_log := plot_log w ++ [p]; next_fig := next_fig w |}.

Definition bump_fig (w : world) : world :=
  {| stat_log := stat_log w; plot_log := plot_log w; next_fig := S (next_fig w) |}.

Definition with_env (f : world -> world) (s : state) : state :=
  {| results := results s; plots := plots s; env := f (env s) |}.

(** A call into the statistics library: logged, then its outcome. *)
Definition stat {A} (c : stat_call) (outcome : exn + A) : M A :=
  fun s => (outcome, with_env (log_stat c) s).

(** A drawing statement. *)
Definition plot (lib : StatsLib) (p : plot_call) : M unit :=
  fun s =>
    match draw lib p with
    | Some e => (inl e, with_env (log_plot p) s)
    | None => (inr tt, with_env (log_plot p) s)
    end.

(** The figure pyplot registers: numbered by its global counter. *)
Definition new_figure : M figure :=
  fun s => (inr (next_fig (env s)), with_env bump_fig s).

(** [fig, ax = plt.subplots(...)]. *)
Definition subplots (lib : StatsLib) (nrows ncols : nat) : M figure :=
  plot lib (Subplots nrows ncols) ;; new_figure.

(** ** The selector, lines 61-160 *)

(** The significance threshold, written [0.05] at each use in the source
    (the binary64 value closest to it). *)
#[warnings="-inexact-float"]
Definition alpha : float := 0.05%float.

Definition formula (col_preco var_cat : string) : string :=
  (col_preco ++ " ~ C(" ++ var_cat ++ ")")%string.

Definition term (var_cat : string) : string :=
  ("C(" ++ var_cat ++ ")")%string.

(** [label in table.index]. *)
Definition in_index (label : string) (t : anova_table) : bool :=
  bool_decide (label ∈ t.*1).

(** [table.loc[label, 'PR(>F)']], for a label of the index (labels of a
    table of [anova_lm] are distinct). *)
Fixpoint loc_PR_F (label : string) (t : anova_table) : option float :=
  match t with
  | [] => None
  | (l, r) :: t' => if bool_decide (l = label) then Some (PR_F r) else loc_PR_F label t'
  end.

(** Lines 82-86. *)
Definition p_valor_anova (var_cat : string) (t : anova_table) : option float :=
  if in_index (term var_cat) t then loc_PR_F (term var_cat) t
  else
    match t with
    | r :: _ => Some (PR_F r.2)          (* table['PR(>F)'].iloc[0] *)
    | [] => None
    end.

(** [l.index(x)]: position of the first element equal to [x];
    ValueError when there is none. *)
Fixpoint list_index (x : float) (l : list float) : option nat :=
  match l with
  | [] => None
  | y :: t => if (y =? x)%float then Some 0 else S <$> list_index x t
  end.

Definition index_or_raise (x : float) (l : list float) : M nat :=
  match list_index x l with
  | Some i => mret i
  | None => raise "5.0 is not in list"%string
  end.

(** [a[i]] on an array; IndexError out of range. *)
Definition getitem (a : list float) (i : nat) : M float :=
  match a !! i with
  | Some v => mret v
  | None => raise "index out of bounds"%string
  end.

(** Lines 93-105: the value of [normalidade_ok]. *)
Definition normality_check (lib : StatsLib) (residuos : list float) : M bool :=
  if bool_decide (3 ≤ len residuos)%Z then
    if bool_decide (len residuos ≤ 5000)%Z then
      ' (stat_shapiro, p_shapiro) ← stat (CallShapiro residuos) (shapiro lib residuos) ;
      setitem "shapiro_test" (VPair stat_shapiro p_shapiro) ;;
      mret (alpha <=? p_shapiro)%float
    else
      ad_result ← stat (CallAnderson residuos) (anderson lib residuos) ;
      setitem "anderson_test" (VAnderson ad_result) ;;
      sig_level_idx ← index_or_raise 5.0 (significance_level ad_result) ;
      crit ← getitem (critical_values ad_result) sig_level_idx ;
      mret (statistic ad_result <? crit)%float
  else mret false.

(** Lines 110-119: histogram and Q-Q plot of the residuals. *)
Definition draw_normalidade (lib : StatsLib) (var_cat : string)
    (residuos : list float) : M unit :=
  (if bool_decide (1 < len residuos)%Z then
     plot lib (Histplot residuos) ;;
     plot lib (SetTitle ("Histograma Resíduos (" ++ var_cat ++ ")")) ;;
     plot lib (QQplot residuos) ;;
     plot lib (SetTitle ("Q-Q Plot Resíduos (" ++ var_cat ++ ")"))
   else
     plot lib (AxText "Poucos dados") ;;
     plot lib (AxText "Poucos dados")) ;;
  plot lib TightLayout.

(** Lines 109-120. *)
Definition plot_normalidade (lib : StatsLib) (var_cat : string)
    (residuos : list float) : M unit :=
  fig_norm ← subplots lib 1 2 ;
  draw_normalidade lib var_cat residuos ;;
  setplot "normalidade" fig_norm.

(** Lines 123-129: the value of [homocedasticidade_ok]. *)
Definition homogeneity_check (lib : StatsLib) (validos : list (list float)) : M bool :=
  if bool_decide (2 ≤ len validos)%Z then
    ' (stat_levene, p_levene) ← stat (CallLevene validos) (levene lib validos) ;
    setitem "levene_test" (VPair stat_levene p_levene) ;;
    mret (alpha <=? p_levene)%float
  else mret false.

(** Line 133: [not normalidade_ok or not homocedasticidade_ok]. *)
Definition fallback_trigger (normalidade_ok homocedasticidade_ok : bool) : bool :=
  negb normalidade_ok || negb homocedasticidade_ok.

(** Lines 133-136. *)
Definition kruskal_step (lib : StatsLib) (normalidade_ok homocedasticidade_ok : bool)
    (validos : list (list float)) : M unit :=
  if fallback_trigger normalidade_ok homocedasticidade_ok then
    if bool_decide (2 ≤ len validos)%Z then
      ' (stat_kruskal, p_kruskal) ← stat (CallKruskal validos) (kruskal lib validos) ;
      setitem "kruskal_test" (VPair stat_kruskal p_kruskal)
    else mret tt
  else mret tt.

(** Lines 141-146: the order of the boxes. *)
Definition order_boxplot (lib : StatsLib) (df_var : frame) : option (list level) :=
  let unique_cats := nunique df_var in
  if bool_decide (5 < unique_cats)%Z && bool_decide (unique_cats < 50)%Z then
    match groupby_median_order lib df_var with
    | inr order => Some order
    | inl _ => Some (unique df_var)
    end
  else None.

(** Lines 148-155. *)
Definition draw_boxplot (lib : StatsLib) (var_cat col_preco : string)
    (df_var : frame) : M unit :=
  plot lib (Boxplot var_cat col_preco df_var (order_boxplot lib df_var)) ;;
  plot lib (SetTitle ("Distribuição de " ++ col_preco ++ " por " ++ var_cat)) ;;
  plot lib (Setp (bool_decide (10 < nunique df_var)%Z)) ;;
  plot lib TightLayout.

(** Lines 139-156. *)
Definition plot_boxplot (lib : StatsLib) (var_cat col_preco : string)
    (df_var : frame) : M unit :=
  fig_box ← subplots lib 1 1 ;
  draw_boxplot lib var_cat col_preco df_var ;;
  setplot "boxplot" fig_box.

(** Lines 79-156: the body of the [try]. *)
Definition try_body (lib : StatsLib) (df_var : frame) (var_cat col_preco : string) : M unit :=
  modelo ← stat (CallOls (formula col_preco var_cat) df_var)
                 (ols_fit lib (formula col_preco var_cat) df_var) ;
  tabela ← stat CallAnovaLm (anova_lm lib modelo) ;
  setitem "anova_table" (VTable tabela) ;;
  setitem "p_valor_anova" (VNum (p_valor_anova var_cat tabela)) ;;
  let residuos := resid lib modelo in
  setitem "residuos_count" (VInt (len residuos)) ;;
  normalidade_ok ← normality_check lib residuos ;
  setitem "normalidade_ok" (VBool normalidade_ok) ;;
  plot_normalidade lib var_cat residuos ;;
  let validos := grupos_validos df_var in
  homocedasticidade_ok ← homogeneity_check lib validos ;
  setitem "homocedasticidade_ok" (VBool homocedasticidade_ok) ;;
  kruskal_step lib normalidade_ok homocedasticidade_ok validos ;;
  plot_boxplot lib var_cat col_preco df_var.

(** The dictionary a run returns, with the nested plots dictionary. *)
Record record := {
  fields : gmap string value;
  plot_handles : gmap string figure
}.

Definition record_of (s : state) : record :=
  {| fields := results s; plot_handles := plots s |}.

(** Line 63: [results = {"var_cat": var_cat, "plots": {}}]. *)
Definition initial_state (var_cat : string) (w : world) : state :=
  {| results := <["plots" := VPlots]> (<["var_cat" := VStr var_cat]> ∅);
     plots := ∅;
     env := w |}.

(** The statements of the function after line 63. *)
Definition selector_body (lib : StatsLib) (df_analysis : frame)
    (var_cat col_preco : string) : M unit :=
  let df_var := dropna df_analysis in
  if insufficient df_var then
    setitem "error" (VStr insufficient_msg)
  else
    try_except (try_body lib df_var var_cat col_preco)
               (fun e => setitem "error" (VStr e)).

(** [perform_anova_for_variable]: the outcome ([inl]: an exception leaves
    the function, [inr]: the returned dictionary) and the world after. *)
Definition perform_anova_for_variable (lib : StatsLib) (df_analysis : frame)
    (var_cat col_preco : string) (w : world) : (exn + record) * world :=
  match selector_body lib df_analysis var_cat col_preco (initial_state var_cat w) with
  | (inr _, s) => (inr (record_of s), env s)
  | (inl e, s) => (inl e, env s)
  end.

(** ** The per-variable loop, lines 194-209 *)

(** The loaded table: its categorical columns by name and the price
    column.  The variables of the loop come from the multiselect, whose
    options are columns of the table. *)
Record DataFrame := {
  column : string -> list (option level);
  preco : list float
}.

(** [df[[var_analisada, coluna_preco]].copy()]. *)
Definition slice (d : DataFrame) (var : string) : frame :=
  zip (column d var) (preco d).

(** What the page shows for one variable. *)
Inductive ui_event :=
| Skipped (var : string)                       (* st.warning, continue *)
| AnalysisError (var : string) (msg : value)   (* st.error, continue *)
| Rendered (var : string) (r : record).        (* tables, verdicts, plots *)

(** [DataFrame.empty]. *)
Definition empty_frame (d : frame) : bool :=
  match d with [] => true | _ => false end.

(** One iteration of the loop. *)
Definition analyse_variable (lib : StatsLib) (d : DataFrame) (coluna_preco : string)
    (var_analisada : string) (w : world) : (exn + ui_event) * world :=
  let df_analise_var := dropna (slice d var_analisada) in
  if empty_frame df_analise_var || bool_decide (nunique df_analise_var < 2)%Z then
    (inr (Skipped var_analisada), w)
  else
    match perform_anova_for_variable lib df_analise_var var_analisada coluna_preco w with
    | (inr resultados_var, w') =>
        match fields resultados_var !! "error" with
        | Some msg => (inr (AnalysisError var_analisada msg), w')
        | None => (inr (Rendered var_analisada resultados_var), w')
        end
    | (inl e, w') => (inl e, w')
    end.

(** [for var_analisada in variaveis_selecionadas]: the events shown, and
    the exception that ended the script, if one did. *)
Fixpoint analysis_loop (lib : StatsLib) (d : DataFrame) (coluna_preco : string)
    (variaveis_selecionadas : list string) (w : world)
    : (list ui_event * option exn) * world :=
  match variaveis_selecionadas with
  | [] => (([], None), w)
  | var :: rest =>
      match analyse_variable lib d coluna_preco var w with
      | (inr ev, w') =>
          let '((evs, abort), w'') := analysis_loop lib d coluna_preco rest w' in
          ((ev :: evs, abort), w'')
      | (inl e, w') => (([], Some e), w')
      end
  end.

(** Lines 245-253: what the page says about the homogeneity check. *)
Inductive levene_display :=
| LeveneShown (test : value) (homogeneous : bool)   (* statistic, p-value, verdict *)
| LeveneNotPerformed.                               (* "não pôde ser realizado" *)

Definition levene_section (resultados_var : record) : levene_display :=
  match fields resultados_var !! "levene_test" with
  | Some test =>
      LeveneShown test
        match fields resultados_var !! "homocedasticidade_ok" with
        | Some (VBool true) => true
        | _ => false
        end
  | None => LeveneNotPerformed
  end.

(** ** Vocabulary of the statements *)

(** The guard of line 73 lets the sample through. *)
Definition accepted (df_analysis : frame) : Prop :=
  (2 ≤ nunique (dropna df_analysis))%Z ∧ (10 ≤ len (dropna df_analysis))%Z.

(** Step 1 succeeds: the fit returns the model [m] and the decomposition
    returns the table [t]. *)
Definition fit_succeeds (lib : StatsLib) (df_analysis : frame) (var_cat col_preco : string)
    (m : fitted lib) (t : anova_table) : Prop :=
  ols_fit lib (formula col_preco var_cat) (dropna df_analysis) = inr m ∧
  anova_lm lib m = inr t.

(** The dictionary returned by a run and the statistics calls it made. *)
Definition returned (lib : StatsLib) (df_analysis : frame) (var_cat col_preco : string)
    (w : world) (r : record) (w' : world) : Prop :=
  perform_anova_for_variable lib df_analysis var_cat col_preco w = (inr r, w').


(** The statistics calls logged between two worlds, oldest first. *)
Definition new_calls (w w' : world) : list stat_call :=
  drop (length (stat_log w)) (stat_log w').

(** The call [c] was made between [w] and [w']. *)
Definition made (w w' : world) (c : stat_call) : Prop :=
  c ∈ new_calls w w'.

(** Two events show the same thing, up to the handles of the figures. *)
Definition same_content (e1 e2 : ui_event) : Prop :=
  match e1, e2 with
  | Skipped v1, Skipped v2 => v1 = v2
  | AnalysisError v1 m1, AnalysisError v2 m2 => v1 = v2 ∧ m1 = m2
  | Rendered v1 r1, Rendered v2 r2 =>
      v1 = v2 ∧ fields r1 = fields r2 ∧ dom (plot_handles r1) = dom (plot_handles r2)
  | _, _ => False
  end.


(** The sentence "Kruskal-Wallis is computed if and only if (normality
    fails or homogeneity fails) and at least 2 valid groups exist", as the
    specification states it of the returned record. *)
Definition kruskal_iff_claim (lib : StatsLib) (df_analysis : frame)
    (var_cat col_preco : string) (w : world) : Prop :=
  ∀ m t r w',
    accepted df_analysis →
    fit_succeeds lib df_analysis var_cat col_preco m t →
    returned lib df_analysis var_cat col_preco w r w' →
    (is_Some (fields r !! "kruskal_test") ↔
     (fields r !! "normalidade_ok" = Some (VBool false) ∨
      fields r !! "homocedasticidade_ok" = Some (VBool false)) ∧
     (2 ≤ len (grupos_validos (dropna df_analysis)))%Z).

(** ** Reasoning vocabulary *)

(** Weakest precondition of a statement for a normal and an exceptional
    postcondition. *)
Definition wp {A} (c : M A) (Q : A → state → Prop) (X : exn → state → Prop) (s : state) : Prop :=
  match c s with
  | (inr a, s') => Q a s'
  | (inl e, s') => X e s'
  end.

(** Drawing statements leave the two dictionaries and the statistics log
    alone, and whether they raise ([oe]) does not depend on the state. *)
Definition drawn (s : state) (pl : list plot_call) (n : figure) : state :=
  {| results := results s; plots := plots s;
     env := {| stat_log := stat_log (env s); plot_log := pl; next_fig := n |} |}.

Definition draws_with {A} (oe : option exn) (c : M A) : Prop :=
  ∀ s, ∃ pl n,
    match oe with
    | Some e => c s = (inl e, drawn s pl n)
    | None => ∃ a, c s = (inr a, drawn s pl n)
    end.

(** A figure-and-plot stage: either some drawing statement raises and the
    dictionaries are as before, or the handle is stored under [key]. *)
Definition stage_outcome (key : string) (oe : option exn) (c : M unit) : Prop :=
  ∀ s, ∃ pl n fig,
    c s =
    match oe with
    | Some e =>
        (inl e, {| results := results s; plots := plots s;
                   env := {| stat_log := stat_log (env s); plot_log := pl; next_fig := n |} |})
    | None =>
        (inr tt, {| results := results s; plots := <[key := fig]> (plots s);
                    env := {| stat_log := stat_log (env s); plot_log := pl; next_fig := n |} |})
    end.

(** The first exception among a sequence of drawing statements. *)
Fixpoint first_raise (lib : StatsLib) (ps : list plot_call) : option exn :=
  match ps with
  | [] => None
  | p :: ps' =>
      match draw lib p with
      | Some e => Some e
      | None => first_raise lib ps'
      end
  end.

(** The drawing statements of lines 109-119, in order. *)
Definition drawings_normalidade (var_cat : string) (residuos : list float) : list plot_call :=
  Subplots 1 2 ::
  (if bool_decide (1 < len residuos)%Z then
     [Histplot residuos; SetTitle ("Histograma Resíduos (" ++ var_cat ++ ")");
      QQplot residuos; SetTitle ("Q-Q Plot Resíduos (" ++ var_cat ++ ")")]
   else [AxText "Poucos dados"; AxText "Poucos dados"]) ++
  [TightLayout].

(** The drawing statements of lines 139-155, in order. *)
Definition drawings_boxplot (lib : StatsLib) (var_cat col_preco : string)
    (df_var : frame) : list plot_call :=
  [Subplots 1 1;
   Boxplot var_cat col_preco df_var (order_boxplot lib df_var);
   SetTitle ("Distribuição de " ++ col_preco ++ " por " ++ var_cat);
   Setp (bool_decide (10 < nunique df_var)%Z);
   TightLayout].

(** The rows whose level is one of [ls]. *)
Definition has_level_in (ls : list level) (r : row) : bool :=
  match r.1 with
  | Some l => bool_decide (l ∈ ls)
  | None => false
  end.

(** A dictionary written as the list of its assignments, latest first,
    and the lookup in that list. *)
Definition build {V} (l : list (string * V)) : gmap string V :=
  foldr (λ kv m, <[kv.1 := kv.2]> m) ∅ l.

Fixpoint assoc {V} (k : string) (l : list (string * V)) : option V :=
  match l with
  | [] => None
  | (k', v) :: l' => if String.eqb k' k then Some v else assoc k l'
  end.

(** ** Concrete libraries and samples *)

(** A library whose routines return fixed outcomes, to run the selector on
    concrete samples. *)
Definition fixed_lib (residuos : list float) (tabela : exn + anova_table)
    (sh : exn + (float * float)) (ad : exn + AndersonResult)
    (lev kr : exn + (float * float)) (drawing : plot_call -> option exn) : StatsLib :=
  {| fitted := unit;
     ols_fit := fun _ _ => inr tt;
     resid := fun _ => residuos;
     anova_lm := fun _ => tabela;
     shapiro := fun _ => sh;
     anderson := fun _ => ad;
     levene := fun _ => lev;
     kruskal := fun _ => kr;
     groupby_median_order := fun d => inr (unique d);
     draw := drawing |}.

Definition world0 : world := {| stat_log := []; plot_log := []; next_fig := 1 |}.

(** Twelve sales in two neighbourhoods. *)
Definition sample12 : frame :=
  [(Some "A", 1); (Some "A", 2); (Some "A", 3); (Some "A", 4); (Some "A", 5); (Some "A", 6);
   (Some "B", 2); (Some "B", 4); (Some "B", 6); (Some "B", 8); (Some "B", 10); (Some "B", 12)]%float%string.

(** Nine sales: too few. *)
Definition sample9 : frame := take 9 sample12.

Definition draws_fine : plot_call → option exn := λ _, None.

(** The libraries below are stand-ins to run the selector on concrete
    samples: their outcomes have the shape the real routines return and are
    chosen to reach a given branch; unless a comment says so they are not
    the numbers statsmodels and scipy compute on the sample. *)

(** Twelve sales at price 0 in two neighbourhoods.  Every sum of squares is
    zero, so the decomposition is a table whose F and PR(>F) cells are 0/0,
    that is NaN; the residuals are all zero and Levene's statistic is 0/0
    too.  Kruskal-Wallis is taken as returning NaN, as recent versions of
    scipy do on identical numbers. *)
Definition sample_zero : frame :=
  [(Some "A", 0); (Some "A", 0); (Some "A", 0); (Some "A", 0); (Some "A", 0);
   (Some "A", 0); (Some "B", 0); (Some "B", 0); (Some "B", 0); (Some "B", 0);
   (Some "B", 0); (Some "B", 0)]%float%string.

Definition table_zero : anova_table :=
  [("C(bairro)", {| sum_sq := 0; df := 1; F := nan; PR_F := nan |});
   ("Residual", {| sum_sq := 0; df := 10; F := nan; PR_F := nan |})]%float%string.

Definition lib_zero : StatsLib :=
  fixed_lib (replicate 12 0%float) (inr table_zero)
    (inr (1, 1)%float) (inl "unused"%string) (inr (nan, nan)) (inr (nan, nan))
    draws_fine.

(** Eleven sales: ten in one neighbourhood, one in another.  Only one
    level keeps two observations, so fewer than 2 valid groups remain.  The
    table is the one-way decomposition of this sample (between 110 on 1
    degree of freedom, within 82.5 on 9, F = 12, PR(>F) about 0.0071); the
    Shapiro-Wilk result is a stand-in. *)
Definition sample_lonely : frame :=
  [(Some "A", 1); (Some "A", 2); (Some "A", 3); (Some "A", 4); (Some "A", 5);
   (Some "A", 6); (Some "A", 7); (Some "A", 8); (Some "A", 9); (Some "A", 10);
   (Some "B", 16.5)]%float%string.

Definition table_lonely : anova_table :=
  [("C(bairro)", {| sum_sq := 110; df := 1; F := 12; PR_F := 0.007080078125 |});
   ("Residual", {| sum_sq := 82.5; df := 9; F := nan; PR_F := nan |})]%float%string.

Definition lib_lonely : StatsLib :=
  fixed_lib [-4.5; -3.5; -2.5; -1.5; -0.5; 0.5; 1.5; 2.5; 3.5; 4.5; 0]%float
    (inr table_lonely)
    (inr (0.96875, 0.625)%float) (inl "unused"%string) (inl "unused"%string)
    (inl "unused"%string)
    draws_fine.

(** Twelve sales at one and the same price in two neighbourhoods.  The
    residuals are all zero, Levene's statistic is 0/0, and scipy's
    [kruskal] raises ValueError when all the numbers are identical (up to
    scipy 1.15; later versions return NaN). *)
Definition sample_flat : frame :=
  [(Some "A", 100); (Some "A", 100); (Some "A", 100); (Some "A", 100); (Some "A", 100);
   (Some "A", 100); (Some "B", 100); (Some "B", 100); (Some "B", 100); (Some "B", 100);
   (Some "B", 100); (Some "B", 100)]%float%string.

Definition table_flat : anova_table :=
  [("C(bairro)", {| sum_sq := 0; df := 1; F := nan; PR_F := nan |});
   ("Residual", {| sum_sq := 0; df := 10; F := nan; PR_F := nan |})]%float%string.

Definition lib_flat : StatsLib :=
  fixed_lib (replicate 12 0%float) (inr table_flat)
    (inr (1, 1)%float) (inl "unused"%string) (inr (nan, nan))
    (inl "All numbers are identical in kruskal"%string)
    draws_fine.

(** A stand-in library for [sample12].  The residuals and the sums of
    squares are those of the sample; the other cells and the test results
    are chosen so that normality passes (p = 0.625) and homogeneity fails
    (p = 0.0078125), which makes the selector go through every step,
    Kruskal-Wallis included.  They are not what the real libraries compute
    on [sample12] (there Levene's test does not reject and Kruskal-Wallis is
    not called). *)
Definition table12 : anova_table :=
  [("C(bairro)", {| sum_sq := 36.75; df := 1; F := 4.25; PR_F := 0.0625 |});
   ("Residual", {| sum_sq := 87.5; df := 10; F := nan; PR_F := nan |})]%float%string.

Definition residuos12 : list float :=
  [-2.5; -1.5; -0.5; 0.5; 1.5; 2.5; -5; -3; -1; 1; 3; 5]%float.

(** An Anderson-Darling result with scipy's table of significance levels
    and critical values close to scipy's for a large sample; the statistic
    lies between the critical values at 15 % and at 5 %. *)
Definition anderson12 : AndersonResult :=
  {| statistic := 0.625;
     critical_values := [0.5625; 0.65625; 0.78125; 0.90625; 1.09375];
     significance_level := [15; 10; 5; 2.5; 1] |}%float.

Definition lib12 : StatsLib :=
  fixed_lib residuos12 (inr table12)
    (inr (0.96875, 0.625)%float) (inr anderson12) (inr (6.5, 0.0078125)%float)
    (inr (0.625, 0.4375)%float)
    draws_fine.

(** A hypothetical drawing layer whose [plt.subplots] raises, to reach the
    handler of line 158 from a drawing statement.  It is not the behaviour
    of matplotlib, which draws off screen when there is no display. *)
Definition draws_failing : plot_call → option exn :=
  λ p, match p with
       | Subplots _ _ => Some "drawing failed"%string
       | _ => None
       end.

Definition lib_failing_draw : StatsLib :=
  fixed_lib residuos12 (inr table12)
    (inr (0.96875, 0.625)%float) (inr anderson12) (inr (6.5, 0.0078125)%float)
    (inr (0.625, 0.4375)%float)
    draws_failing.

(** A library that hands back six thousand residuals, so that the
    normality check goes through Anderson-Darling.  The interface does not
    tie the residuals to the rows of the frame; statsmodels returns one per
    row, so the real selector takes this branch on a sample of more than
    5000 rows. *)
Definition lib6000 : StatsLib :=
  fixed_lib (replicate (Z.to_nat 6000) 0%float) (inr table12)
    (inl "unused"%string) (inr anderson12) (inr (6.5, 0.0078125)%float)
    (inr (0.625, 0.4375)%float)
    draws_fine.

(** A hypothetical library that hands back two residuals only, to reach
    the branch of the check that runs no test.  With statsmodels, which
    returns one residual per row, an accepted sample (10 rows or more) never
    reaches it. *)
Definition lib_short : StatsLib :=
  fixed_lib [0; 0]%float (inr table12)
    (inl "unused"%string) (inl "unused"%string) (inr (6.5, 0.0078125)%float)
    (inr (0.625, 0.4375)%float)
    draws_fine.

(** ** Vocabulary of the further properties *)

(** The place of a library routine in the body of the [try]: the fit (line
    79), the decomposition (line 80), the normality test (lines 96 and 100),
    Levene's test (line 127), Kruskal-Wallis (line 135). *)
Definition call_rank (c : stat_call) : nat :=
  match c with
  | CallOls _ _ => 0
  | CallAnovaLm => 1
  | CallShapiro _ | CallAnderson _ => 2
  | CallLevene _ => 3
  | CallKruskal _ => 4
  end.

(** The responses of the rows at one factor level, in row order: the
    group of that level, in the words of the specification ("partition
    response values by factor level"). *)
Definition responses_of_level (d : frame) (c : level) : list float :=
  omap (λ r : row, if decide (r.1 = Some c) then Some r.2 else None) d.

(** The place of the 5 % level in the table of an Anderson-Darling result:
    the first position whose significance level equals 5.0. *)
Definition five_percent_position (levels : list float) (i : nat) : Prop :=
  (∃ lvl, levels !! i = Some lvl ∧ (lvl =? 5)%float = true) ∧
  ∀ j lvl, (j < i)%nat → levels !! j = Some lvl → (lvl =? 5)%float = false.


(** Lines 93-120 raise nothing: the normality test chosen by the residual
    count returns (for Anderson-Darling, with the 5 % level in its table and
    a critical value at that place), and so does every drawing statement of
    the figure of the residuals. *)
Definition normality_stage_returns (lib : StatsLib) (var_cat : string)
    (residuos : list float) : Prop :=
  ((3 ≤ len residuos ≤ 5000)%Z → ∃ W p, shapiro lib residuos = inr (W, p)) ∧
  ((5000 < len residuos)%Z →
   ∃ ad i crit,
     anderson lib residuos = inr ad ∧
     five_percent_position (significance_level ad) i ∧
     critical_values ad !! i = Some crit) ∧
  Forall (λ p, draw lib p = None) (drawings_normalidade var_cat residuos).

(** An Anderson-Darling result whose significance levels do not list 5. *)
Definition anderson_no5 : AndersonResult :=
  {| statistic := 0.25;
     critical_values := [0.5625; 0.65625; 0.90625; 1.09375];
     significance_level := [15; 10; 2.5; 1] |}%float.

Definition lib_no5 : StatsLib :=
  fixed_lib (replicate (Z.to_nat 6000) 0%float) (inr table12)
    (inl "unused"%string) (inr anderson_no5) (inr (6.5, 0.0078125)%float)
    (inr (0.625, 0.4375)%float)
    draws_fine.

(** ** The page: what Streamlit is asked to show *)

(** A piece of the text of a message: literal text, or a value formatted
    into an f-string. *)
Inductive piece :=
| Str (s : string)            (* literal text, or an interpolated string *)
| Fixed4 (x : float)          (* {x:.4f} *)
| Sci4 (x : float)            (* {x:.4e} *)
| IntOf (n : Z)               (* an interpolated integer *)
| ValOf (v : value)           (* an interpolated value of the dictionary *)
| ListOf (l : list string).   (* an interpolated list of names *)

Definition text := list piece.

(** The calls into Streamlit, in the order they are made. *)
#[warnings="-register-all"]
Inductive widget :=
| SetPageConfig
| Title (t : text)
| Header (t : text)
| Subheader (t : text)
| Markdown (t : text)
| MarkdownIntro                     (* lines 167-170, a fixed text *)
| MarkdownInsights                  (* lines 294-336, a fixed text *)
| Write (t : text)
| Success (t : text)
| Info (t : text)
| Warning (t : text)
| Error (t : text)
| Dataframe (v : value)             (* st.dataframe of a value of the dictionary *)
| DataframeHead                     (* st.dataframe(df.head()) *)
| Pyplot (fig : figure)
| Expander (label : string) (body : list widget)
| Checkbox (label : string)
| SidebarHeader (t : text)
| SidebarMultiselect (label : string) (options : list string) (max_selections : Z)
| SidebarButton (label : string) (disabled : bool)
| SidebarMarkdown (t : text).

(** The values of the dictionary are read at the types the selector stores
    them with; [None] stands for a value of another type, which the
    statement cannot use. *)

(** [a, b = v]. *)
Definition unpack (v : value) : option (float * float) :=
  match v with
  | VPair a b => Some (a, b)
  | _ => None
  end.

(** The truth value of [resultados_var.get(k)]; a missing key gives Python's
    [None], which is false. *)
Definition truth (o : option value) : option bool :=
  match o with
  | None => Some false
  | Some (VBool b) => Some b
  | Some _ => None
  end.

(** [resultados_var["plots"]]. *)
Definition plots_of (resultados_var : record) : option (gmap string figure) :=
  match fields resultados_var !! "plots" with
  | Some VPlots => Some (plot_handles resultados_var)
  | _ => None
  end.

(** The fixed messages of lines 211-269. *)
Definition expander_label : string :=
  "Verificar Pressupostos da ANOVA e Testes Alternativos".

Definition anova_significant (p_anova : float) : widget :=
  Success [Str "✅ ANOVA: Há uma diferença estatisticamente significativa nos preços (p-valor: ";
           Sci4 p_anova; Str ")."].

Definition anova_not_significant (p_anova : float) : widget :=
  Info [Str "ℹ️ ANOVA: Não há uma diferença estatisticamente significativa nos preços (p-valor: ";
        Sci4 p_anova; Str ")."].

Definition residuals_normal : widget :=
  Success [Str "✅ Resíduos parecem ser normalmente distribuídos."].

Definition residuals_not_normal : widget :=
  Warning [Str "⚠️ Resíduos NÃO parecem ser normalmente distribuídos."].

Definition variances_homogeneous : widget :=
  Success [Str "✅ Variâncias parecem ser homogêneas."].

Definition variances_not_homogeneous : widget :=
  Warning [Str "⚠️ Variâncias NÃO parecem ser homogêneas."].

Definition levene_not_performed : widget :=
  Write [Str "Teste de Levene não pôde ser realizado (dados insuficientes)."].

Definition kruskal_title : widget :=
  Markdown [Str "**Teste de Kruskal-Wallis (Alternativa Não Paramétrica):**"].

Definition kruskal_significant : widget :=
  Success [Str "✅ Kruskal-Wallis: Diferença significativa nas medianas dos preços."].

Definition kruskal_not_significant : widget :=
  Info [Str "ℹ️ Kruskal-Wallis: Sem diferença significativa nas medianas dos preços."].

(** Lines 212-222. *)
Definition show_anova (resultados_var : record) : option (list widget) :=
  match fields resultados_var !! "anova_table" with
  | Some tabela =>
      significance ←
        match fields resultados_var !! "p_valor_anova" with
        | None | Some (VNum None) => Some []
        | Some (VNum (Some p_anova)) =>
            Some [if (p_anova <? alpha)%float then anova_significant p_anova
                  else anova_not_significant p_anova]
        | Some _ => None
        end ;
      Some ([Markdown [Str "**Tabela ANOVA:**"]; Dataframe tabela] ++ significance)
  | None => Some []
  end.

(** Lines 226-242. *)
Definition show_normality (resultados_var : record) : option (list widget) :=
  test_line ←
    match fields resultados_var !! "shapiro_test" with
    | Some v =>
        ' (stat, p_val) ← unpack v ;
        Some [Write [Str "Shapiro-Wilk: Estatística="; Fixed4 stat;
                     Str ", P-valor="; Sci4 p_val]]
    | None =>
        match fields resultados_var !! "anderson_test" with
        | Some (VAnderson ad_res) =>
            Some [Write [Str "Anderson-Darling: Estatística="; Fixed4 (statistic ad_res)]]
        | Some _ => None
        | None => Some []
        end
    end ;
  normalidade_ok ← truth (fields resultados_var !! "normalidade_ok") ;
  figs ← plots_of resultados_var ;
  Some ([Markdown [Str "**Normalidade dos Resíduos:**"]] ++ test_line ++
        [if (normalidade_ok : bool) then residuals_normal else residuals_not_normal] ++
        match (figs : gmap string figure) !! "normalidade" with
        | Some fig => [Pyplot fig]
        | None => []
        end).

(** Lines 244-253, from what [levene_section] reads. *)
Definition show_levene (resultados_var : record) : option (list widget) :=
  shown ←
    match levene_section resultados_var with
    | LeveneShown test homogeneous =>
        ' (stat_l, p_l) ← unpack test ;
        Some [Write [Str "Teste de Levene: Estatística="; Fixed4 stat_l;
                     Str ", P-valor="; Sci4 p_l];
              if homogeneous then variances_homogeneous else variances_not_homogeneous]
    | LeveneNotPerformed =>
        Some [levene_not_performed]
    end ;
  Some (Markdown [Str "**Homogeneidade das Variâncias (Homocedasticidade):**"] :: shown).

(** Lines 255-262. *)
Definition show_kruskal (resultados_var : record) : option (list widget) :=
  match fields resultados_var !! "kruskal_test" with
  | Some v =>
      ' (stat_k, p_k) ← unpack v ;
      Some [kruskal_title;
            Write [Str "Kruskal-Wallis: Estatística="; Fixed4 stat_k;
                   Str ", P-valor="; Sci4 p_k];
            if (p_k <? alpha)%float then kruskal_significant else kruskal_not_significant]
  | None => Some []
  end.

(** Lines 265-267. *)
Definition show_boxplot (resultados_var : record) : option (list widget) :=
  figs ← plots_of resultados_var ;
  Some match (figs : gmap string figure) !! "boxplot" with
       | Some fig => [Markdown [Str "**Distribuição de Preços por Categoria:**"]; Pyplot fig]
       | None => []
       end.

(** Lines 211-269: the display of one dictionary. *)
Definition render (resultados_var : record) : option (list widget) :=
  anova ← show_anova resultados_var ;
  normality ← show_normality resultados_var ;
  homogeneity ← show_levene resultados_var ;
  fallback ← show_kruskal resultados_var ;
  boxplot ← show_boxplot resultados_var ;
  Some (anova ++
        [Expander expander_label (normality ++ homogeneity ++ fallback)] ++
        boxplot ++ [Markdown [Str "---"]]).

(** Everything a page shows, the bodies of the expanders included. *)
Definition contents (ws : list widget) : list widget :=
  ws ≫= λ w, match w with
             | Expander _ body => w :: body
             | _ => [w]
             end.

(** ** pandas, behind an interface *)

(** The columns of a table are values of the library; what the dashboard
    asks of them is an interface, as for the statistics routines. *)
Record Pandas := {
  series : Type;                                          (* a column *)
  read_csv : string → exn + list (string * series);       (* labels and columns, in order *)
  is_object : series → bool;                              (* kept by select_dtypes(include=['object']) *)
  is_number : series → bool;                              (* kept by select_dtypes(include=np.number) *)
  to_numeric : series → series;                           (* pd.to_numeric(_, errors='coerce') *)
  isna : series → list bool;                              (* one flag per row *)
  take_rows : list bool → series → series;                (* the rows where the mask holds *)
  series_nunique : series → Z;                            (* Series.nunique() *)
  as_levels : series → list (option level);               (* the cells as factor levels *)
  as_floats : series → list float                         (* the cells as floats *)
}.

(** A frame: its labelled columns, in order. *)
Definition table (pd : Pandas) : Type := list (string * series pd).

(** ** [load_data], lines 15-58 *)

Definition code (a : Ascii.ascii) : N := Ascii.N_of_ascii a.

Definition is_upper (a : Ascii.ascii) : bool := ((65 <=? code a) && (code a <=? 90))%N.
Definition is_lower (a : Ascii.ascii) : bool := ((97 <=? code a) && (code a <=? 122))%N.
Definition is_digit (a : Ascii.ascii) : bool := ((48 <=? code a) && (code a <=? 57))%N.

(** The characters the pattern [[^A-Za-z0-9_]+] of line 35 does not match. *)
Definition is_word_char (a : Ascii.ascii) : bool :=
  is_upper a || is_lower a || is_digit a || (code a =? 95)%N.

(** [.str.replace('[^A-Za-z0-9_]+', '', regex=True)]: every character
    outside the class is dropped (a character that is not ASCII is a run of
    bytes above 127 in the string, all dropped). *)
Fixpoint remove_non_word (s : string) : string :=
  match s with
  | EmptyString => EmptyString
  | String a s' =>
      if is_word_char a then String a (remove_non_word s') else remove_non_word s'
  end.

Definition to_lower (a : Ascii.ascii) : Ascii.ascii :=
  if is_upper a then Ascii.ascii_of_N (code a + 32) else a.

(** [.str.lower()], on the ASCII text the replacement leaves. *)
Fixpoint str_lower (s : string) : string :=
  match s with
  | EmptyString => EmptyString
  | String a s' => String (to_lower a) (str_lower s')
  end.

(** Line 35, one label. *)
Definition clean_name (s : string) : string := str_lower (remove_non_word s).

Definition urls_tentativas : list string :=
  ["https://raw.githubusercontent.com/Viniciusalgueiro/Ameshousing/refs/heads/main/AmesHousing.csv"].

(** Lines 22-28: the first URL that [read_csv] can read, with its table. *)
Fixpoint first_readable (pd : Pandas) (urls : list string) : option (table pd * string) :=
  match urls with
  | [] => None
  | url :: rest =>
      match read_csv pd url with
      | inr df => Some (df, url)
      | inl _ => first_readable pd rest
      end
  end.

(** The columns that carry a label.  [df[label]] is a column when there is
    one; with several pandas hands back a frame, on which the statements of
    lines 46 and 51 raise. *)
Definition columns_named {pd : Pandas} (label : string) (df : table pd) : list (series pd) :=
  snd <$> List.filter (λ c, bool_decide (c.1 = label)) df.

(** [df.rename(columns={old: new}, inplace=True)]. *)
Definition rename {pd : Pandas} (old new : string) (df : table pd) : table pd :=
  (λ c, (if bool_decide (c.1 = old) then new else c.1, c.2)) <$> df.

(** Lines 46-47: the price column made numeric, then the rows without a
    price dropped from every column. *)
Definition price_to_numeric {pd : Pandas} (coluna_preco_nome : string) (df : table pd)
    : exn + table pd :=
  match columns_named coluna_preco_nome df with
  | [s] =>
      let preco := to_numeric pd s in
      let keep := negb <$> isna pd preco in
      inr ((λ c, (c.1, take_rows pd keep
                         (if bool_decide (c.1 = coluna_preco_nome) then preco else c.2)))
             <$> df)
  | [] => inl ("'" ++ coluna_preco_nome ++ "'")%string
  | _ => inl "arg must be a list, tuple, 1-d array, or Series"%string
  end.

(** Line 51, for one numeric column:
    [df[col].nunique() < 20 and col != coluna_preco_nome]. *)
Definition is_discrete {pd : Pandas} (df : table pd) (coluna_preco_nome : option string)
    (col : string) : exn + bool :=
  match columns_named col df with
  | [s] =>
      inr (bool_decide (series_nunique pd s < 20)%Z &&
           bool_decide (Some col ≠ coluna_preco_nome))
  | [] => inl ("'" ++ col ++ "'")%string
  | _ =>
      inl "The truth value of a Series is ambiguous. Use a.empty, a.bool(), a.item(), a.any() or a.all()."%string
  end.

(** A comprehension [[x for x in l if p(x)]] whose condition can raise. *)
Fixpoint filter_raising {A} (p : A → exn + bool) (l : list A) : exn + list A :=
  match l with
  | [] => inr []
  | x :: l' =>
      match p x with
      | inl e => inl e
      | inr b =>
          match filter_raising p l' with
          | inl e => inl e
          | inr kept => inr (if b then x :: kept else kept)
          end
      end
  end.

(** The order of Python on strings: by code point, that is by byte on
    UTF-8 text. *)
Definition str_le (a b : string) : Prop := String.leb a b = true.

#[global] Instance str_le_dec : RelDecision str_le :=
  λ a b, decide (String.leb a b = true).

(** [sorted(list(set(l)))]. *)
Definition sorted_set (l : list string) : list string :=
  merge_sort str_le (remove_dups l).

(** What [load_data] returns: the frame, the label of the price column,
    the selectable columns, all the labels. *)
Definition loaded (pd : Pandas) : Type :=
  option (table pd) * option string * list string * list string.

(** Lines 31 and 34. *)
Definition load_failed : widget :=
  Error [Str "Não foi possível carregar o dataset de nenhuma das URLs conhecidas."].

Definition load_succeeded (url_carregada : string) : widget :=
  Success [Str "Dataset carregado com sucesso de: "; Str url_carregada].

(** [load_data()]: what it shows, and what it returns or raises (one
    call; under [st.cache_data] a later call replays the same messages and
    result). *)
Definition load_data (pd : Pandas) : (exn + loaded pd) * list widget :=
  match first_readable pd urls_tentativas with
  | None =>
      (inr (None, None, [], []), [load_failed])
  | Some (raw, url_carregada) =>
      let shown := [load_succeeded url_carregada] in
      let df : table pd := (λ c, (clean_name c.1, c.2)) <$> raw in
      let '(df, coluna_preco_nome) :=
        if bool_decide ("saleprice" ∈ df.*1) then (df, Some "saleprice")
        else if bool_decide ("sale_price" ∈ df.*1) then
               (rename "sale_price" "saleprice" df, Some "saleprice")
             else (df, None) in
      match match coluna_preco_nome with
            | Some preco => price_to_numeric preco df
            | None => inr df
            end with
      | inl e => (inl e, shown)
      | inr df =>
          let colunas_categoricas_potenciais :=
            (List.filter (λ c, is_object pd c.2) df).*1 in
          match filter_raising (is_discrete df coluna_preco_nome)
                  (List.filter (λ c, is_number pd c.2) df).*1 with
          | inl e => (inl e, shown)
          | inr colunas_numericas_discretas =>
              (inr (Some df, coluna_preco_nome,
                    sorted_set
                      (List.filter (λ col, bool_decide (Some col ≠ coluna_preco_nome))
                         (colunas_categoricas_potenciais ++ colunas_numericas_discretas)),
                    df.*1),
               shown)
          end
      end
  end.

(** ** The script, lines 164-291 *)

(** What the user does on the page. *)
Record Browser := {
  mostrar_amostra : bool;                          (* the checkbox of line 177 *)
  multiselect : list string → list string;         (* the selection among the options *)
  analisar : bool                                  (* the button of line 271 *)
}.

(** [len(df)]. *)
Definition nrows {pd : Pandas} (df : table pd) : Z :=
  match df with
  | (_, s) :: _ => len (isna pd s)
  | [] => 0
  end.

(** The loaded frame as the loop reads it: [df[[var, coluna_preco]]], for
    labels that each name one column of the frame (the labels of a frame are
    distinct unless the cleaning of line 35 merged two of them, and the
    multiselect returns labels among its options). *)
Definition to_DataFrame {pd : Pandas} (df : table pd) (coluna_preco : string) : DataFrame :=
  {| column := λ var,
       match columns_named var df with
       | s :: _ => as_levels pd s
       | [] => []
       end;
     preco :=
       match columns_named coluna_preco df with
       | s :: _ => as_floats pd s
       | [] => []
       end |}.

(** Lines 202, 208 and 211-269: what the page shows for the outcome of one
    variable. *)
Definition show_event (ev : ui_event) : option (list widget) :=
  match ev with
  | Skipped var =>
      Some [Warning [Str "Não há dados suficientes ou níveis para '"; Str var;
                     Str "' após limpeza. Pulando."]]
  | AnalysisError var msg =>
      Some [Error [Str "Erro ao analisar '"; Str var; Str "': "; ValOf msg]]
  | Rendered _ resultados_var => render resultados_var
  end.

(** The exception of a statement of the display that cannot use a value. *)
Definition display_error : exn := "TypeError".

(** Line 195. *)
Definition subheader_of (var_analisada : string) : widget :=
  Subheader [Str "Análise para: `"; Str var_analisada; Str "`"].

(** Lines 194-269: the loop, with what it shows. *)
Fixpoint show_loop (lib : StatsLib) (d : DataFrame) (coluna_preco : string)
    (variaveis_selecionadas : list string) (w : world)
    : (list widget * option exn) * world :=
  match variaveis_selecionadas with
  | [] => (([], None), w)
  | var_analisada :: rest =>
      let subheader := subheader_of var_analisada in
      match analyse_variable lib d coluna_preco var_analisada w with
      | (inl e, w') => (([subheader], Some e), w')
      | (inr ev, w') =>
          match show_event ev with
          | None => (([subheader], Some display_error), w')
          | Some shown =>
              let '((more, abort), w'') := show_loop lib d coluna_preco rest w' in
              ((subheader :: shown ++ more, abort), w'')
          end
      end
  end.

(** Python's NameError for the name assigned at line 184 only. *)
Definition name_error : exn := "name 'variaveis_selecionadas' is not defined".

(** Lines 164-170. *)
Definition page_top : list widget :=
  [SetPageConfig; Title [Str "🏠 Dashboard de Análise Imobiliária com ANOVA"]; MarkdownIntro].

(** Lines 176-188. *)
Definition page_overview {pd : Pandas} (ui : Browser) (df : table pd) (coluna_preco : string)
    (colunas_categoricas_selecionaveis : list string) : list widget :=
  [Header [Str "1. Visão Geral dos Dados"]; Checkbox "Mostrar amostra dos dados"] ++
  (if mostrar_amostra ui then [DataframeHead] else []) ++
  [Write [Str "Total de registros carregados (após limpeza inicial na coluna '";
          Str coluna_preco; Str "'): "; IntOf (nrows df)];
   Write [Str "Coluna alvo (preço): `"; Str coluna_preco; Str "`"];
   SidebarHeader [Str "⚙️ Configurações da Análise"];
   SidebarMultiselect "Escolha 1 a 3 variáveis categóricas para análise ANOVA:"
     colunas_categoricas_selecionaveis 3].

(** Lines 277-278. *)
Definition sidebar_foot : list widget :=
  [SidebarMarkdown [Str "---"];
   SidebarMarkdown [Str "Desenvolvido como parte de uma análise de dados imobiliários."]].

(** Lines 191-192. *)
Definition results_head (coluna_preco : string) (variaveis_selecionadas : list string)
    : list widget :=
  [Header [Str "2. Resultados da Análise ANOVA"];
   Markdown [Str "Analisando o impacto de **";
             Str (String.concat ", " variaveis_selecionadas);
             Str "** sobre **"; Str coluna_preco; Str "**."]].

(** Lines 281, 284-285 and 287. *)
Definition awaiting_data : widget :=
  Warning [Str "Aguardando carregamento dos dados ou verifique os erros acima."].

Definition price_not_found (todas_colunas : list string) : widget :=
  Error [Str "A coluna de preço de venda ('saleprice' ou similar) não foi encontrada no dataset. Verifique as colunas disponíveis: ";
         ListOf todas_colunas].

Definition no_categorical_column : widget :=
  Error [Str "Nenhuma coluna categórica adequada para análise foi identificada."].

(** Lines 292-336. *)
Definition page_insights : list widget :=
  [Header [Str "3. Insights Gerais e Recomendações"];
   Expander "Ver Análise Detalhada e Recomendações" [MarkdownInsights]].

(** The whole script: what it shows, the exception that ends it if one
    does, and the world it leaves. *)
Definition script (pd : Pandas) (lib : StatsLib) (ui : Browser) (w : world)
    : (list widget * option exn) * world :=
  match load_data pd with
  | (inl e, shown) => ((page_top ++ shown, Some e), w)
  | (inr (df, coluna_preco, colunas_categoricas_selecionaveis, todas_colunas), shown) =>
      match df, coluna_preco with
      | Some df, Some coluna_preco =>
          let overview :=
            page_overview ui df coluna_preco colunas_categoricas_selecionaveis in
          let variaveis_selecionadas := multiselect ui colunas_categoricas_selecionaveis in
          match variaveis_selecionadas with
          | _ :: _ =>
              let '((results_shown, abort), w') :=
                show_loop lib (to_DataFrame df coluna_preco) coluna_preco
                  variaveis_selecionadas w in
              let upto :=
                page_top ++ shown ++ overview ++
                results_head coluna_preco variaveis_selecionadas ++ results_shown in
              match abort with
              | Some e => ((upto, Some e), w')
              | None => ((upto ++ sidebar_foot ++ page_insights, None), w')
              end
          | [] =>
              ((page_top ++ shown ++ overview ++
                [SidebarButton "Analisar" true] ++ sidebar_foot, None), w)
          end
      | None, None =>
          ((page_top ++ shown ++ [awaiting_data], Some name_error), w)
      | _, _ =>
          ((page_top ++ shown ++
            match coluna_preco with
            | None => [price_not_found todas_colunas]
            | Some _ => []
            end ++
            match colunas_categoricas_selecionaveis with
            | [] => [no_categorical_column]
            | _ :: _ => []
            end,
            Some name_error), w)
      end
  end.

(** ** A concrete pandas and a concrete user, for examples *)

(** A column as a flag (numeric or text) and its cells: the text of a cell
    with its value as a number, or nothing when the cell is missing. *)
Definition small_series : Type := bool * list (option (string * float)).

Definition text_column (l : list string) : small_series :=
  (false, (λ s, Some (s, nan)) <$> l).

Definition number_column (l : list (string * float)) : small_series :=
  (true, Some <$> l).

(** Twelve sales in two neighbourhoods, sold in two years. *)
Definition small_file : list (string * small_series) :=
  [("Neighborhood", text_column ["A"; "A"; "A"; "A"; "A"; "A"; "B"; "B"; "B"; "B"; "B"; "B"]);
   ("Yr Sold", number_column [("2009", 2009); ("2009", 2009); ("2009", 2009); ("2010", 2010);
                              ("2010", 2010); ("2010", 2010); ("2009", 2009); ("2009", 2009);
                              ("2009", 2009); ("2010", 2010); ("2010", 2010); ("2010", 2010)]);
   ("SalePrice", number_column [("1", 1); ("2", 2); ("3", 3); ("4", 4); ("5", 5); ("6", 6);
                                ("2", 2); ("4", 4); ("6", 6); ("8", 8); ("10", 10);
                                ("12", 12)])]%float%string.

Definition small_pandas (file : exn + list (string * small_series)) : Pandas :=
  {| series := small_series;
     read_csv := λ _, file;
     is_object := λ s : small_series, negb s.1;
     is_number := λ s : small_series, s.1;
     to_numeric := λ s : small_series,
       (true, (λ c : option (string * float),
                 match c with
                 | Some (t, x) => if is_nan x then None else Some (t, x)
                 | None => None
                 end) <$> s.2);
     isna := λ s : small_series,
       (λ c : option (string * float),
          match c with Some _ => false | None => true end) <$> s.2;
     take_rows := λ (mask : list bool) (s : small_series),
       (s.1, (List.filter fst (zip mask s.2)).*2);
     series_nunique := λ s : small_series,
       len (remove_dups (omap (fmap (M:=option) fst) s.2));
     as_levels := λ s : small_series, fmap (M:=option) fst <$> s.2;
     as_floats := λ s : small_series,
       (λ c : option (string * float),
          match c with Some (_, x) => x | None => nan end) <$> s.2 |}.

(** The file is there. *)
Definition pandas_online : Pandas := small_pandas (inr small_file).

(** The file cannot be read. *)
Definition pandas_offline : Pandas := small_pandas (inl "HTTP Error 404: Not Found"%string).

(** A file whose labels ["SalePrice"] and ["Sale Price"] clean to the same
    label. *)
Definition pandas_two_prices : Pandas :=
  small_pandas (inr (small_file ++ [("Sale Price"%string, number_column [])])).

(** A file without a price column. *)
Definition pandas_no_price : Pandas := small_pandas (inr (take 2 small_file)).

(** The two columns of [sample12] as a loaded table. *)
Definition small_data : DataFrame :=
  {| column := λ _, fst <$> sample12; preco := snd <$> sample12 |}.

(** A user who selects the options offered, whatever they are. *)
Definition selects (choice : list string) : Browser :=
  {| mostrar_amostra := false; multiselect := λ _, choice; analisar := false |}.

(** ** Basic facts *)

Lemma insufficient_false (d : frame) :
  insufficient d = false ↔ (2 ≤ nunique d)%Z ∧ (10 ≤ len d)%Z.
Proof.
  unfold insufficient. rewrite orb_false_iff, !bool_decide_eq_false. lia.
Qed.

Lemma insufficient_true (d : frame) :
  insufficient d = true ↔ (nunique d < 2)%Z ∨ (len d < 10)%Z.
Proof.
  unfold insufficient. rewrite orb_true_iff, !bool_decide_eq_true. tauto.
Qed.

(** ** The groups partition the responses *)

Lemma unique_from_spec (seen l : list level) :
  NoDup (unique_from seen l) ∧
  ∀ x, x ∈ unique_from seen l ↔ x ∈ l ∧ x ∉ seen.
Proof.
  revert seen. induction l as [| y l IH]; intros seen; cbn [unique_from].
  - split; [constructor |]. intros x. rewrite elem_of_nil. tauto.
  - case_bool_decide as Hy.
    + destruct (IH seen) as [Hnd Hin]. split; [done |].
      intros x. rewrite Hin, elem_of_cons. naive_solver.
    + destruct (IH (y :: seen)) as [Hnd Hin]. split.
      * constructor; [| done]. rewrite Hin, elem_of_cons. naive_solver.
      * intros x. rewrite !elem_of_cons, Hin, elem_of_cons.
        destruct (decide (x = y)); naive_solver.
Qed.

Lemma filter_disjoint_app {A} (p q : A → bool) (l : list A) :
  (∀ x, p x = true → q x = true → False) →
  List.filter p l ++ List.filter q l ≡ₚ List.filter (λ x, p x || q x) l.
Proof.
  intros Hpq. induction l as [| x l IH]; [done |]. cbn [List.filter].
  destruct (p x) eqn:Hp, (q x) eqn:Hq; cbn [orb].
  - destruct (Hpq x Hp Hq).
  - cbn. by rewrite IH.
  - rewrite <- Permutation_middle. by rewrite IH.
  - done.
Qed.

Lemma filter_ext_bool {A} (p q : A → bool) (l : list A) :
  (∀ x, p x = q x) → List.filter p l = List.filter q l.
Proof. intros H. induction l as [| x l IH]; [done |]. cbn. by rewrite H, IH. Qed.

Lemma select_levels_partition (d : frame) (ls : list level) :
  NoDup ls →
  concat (select_level d <$> ls) ≡ₚ snd <$> List.filter (has_level_in ls) d.
Proof.
  induction 1 as [| c ls Hc Hnd IH]; cbn [fmap list_fmap concat].
  - rewrite (filter_ext_bool _ (λ _, false)).
    + by induction d.
    + intros [[l |] y]; [| done]. unfold has_level_in. cbn.
      apply bool_decide_eq_false. apply not_elem_of_nil.
  - rewrite IH. unfold select_level. rewrite <- fmap_app.
    apply fmap_Permutation.
    rewrite filter_disjoint_app.
    + rewrite (filter_ext_bool _ (has_level_in (c :: ls))); [done |].
      intros [[l |] y]; unfold has_level, has_level_in; cbn; [| done].
      apply eq_true_iff_eq. rewrite orb_true_iff, !bool_decide_eq_true, elem_of_cons.
      tauto.
    + intros [[l |] y]; unfold has_level, has_level_in; cbn; [| done].
      rewrite !bool_decide_eq_true. by intros ->.
Qed.

Lemma dropna_notna (d : frame) : Forall (λ r, notna r = true) (dropna d).
Proof.
  apply Forall_forall. intros r Hr. apply list_elem_of_In in Hr.
  by apply List.filter_In in Hr as [_ Hr].
Qed.

Lemma filter_all {A} (p : A → bool) (l : list A) :
  Forall (λ x, p x = true) l → List.filter p l = l.
Proof. induction 1 as [| x l Hx _ IH]; [done |]. cbn. by rewrite Hx, IH. Qed.

(** Every response of the cleaned frame is in the group of its level,
    once: the groups are a partition of the response column. *)
Lemma grupos_partition (d : frame) :
  concat (grupos (dropna d)) ≡ₚ snd <$> dropna d.
Proof.
  pose proof (dropna_notna d) as Hna. set (d' := dropna d) in *.
  unfold grupos.
  assert ((λ c, dropna_values (select_level d' c)) <$> unique d'
          = select_level d' <$> unique d') as ->.
  { apply list_fmap_ext. intros _ c _. unfold dropna_values, select_level.
    apply filter_all. apply Forall_fmap, Forall_forall. intros r Hr. cbn.
    apply list_elem_of_In, List.filter_In in Hr as [Hr _]. apply list_elem_of_In in Hr.
    rewrite Forall_forall in Hna. specialize (Hna r Hr).
    unfold notna in Hna. destruct r as [[l |] y]; [| done]. exact Hna. }
  destruct (unique_from_spec [] (factor_values d')) as [Hnd Hin].
  rewrite (select_levels_partition d' (unique d') Hnd).
  rewrite filter_all; [done |].
  apply Forall_forall. intros r Hr. rewrite Forall_forall in Hna. specialize (Hna r Hr).
  unfold notna in Hna. unfold has_level_in. destruct r as [[l |] y]; [| done]. cbn.
  apply bool_decide_eq_true. apply Hin. split; [| apply not_elem_of_nil].
  unfold factor_values. apply list_elem_of_omap. by exists (Some l, y).
Qed.

Lemma grupos_validos_sizes (d : frame) :
  Forall (λ g, (2 ≤ len g)%Z) (grupos_validos d).
Proof.
  apply Forall_forall. intros g Hg. apply list_elem_of_In in Hg.
  unfold grupos_validos in Hg. apply List.filter_In in Hg as [_ Hg].
  by apply bool_decide_eq_true in Hg.
Qed.

(** ** Running the statements *)

Lemma bind_run {A B} (c : M A) (k : A → M B) (s : state) :
  (c ≫= k) s =
  match c s with
  | (inr a, s') => k a s'
  | (inl e, s') => (inl e, s')
  end.
Proof. reflexivity. Qed.

Lemma draws_with_bind {A B} (oe oe' : option exn) (c : M A) (k : A → M B) :
  draws_with oe c → (∀ a, draws_with oe' (k a)) →
  draws_with (match oe with Some e => Some e | None => oe' end) (c ≫= k).
Proof.
  intros Hc Hk s. rewrite bind_run.
  destruct (Hc s) as (pl & n & H). destruct oe as [e |].
  - rewrite H. by exists pl, n.
  - destruct H as [a ->]. destruct (Hk a (drawn s pl n)) as (pl' & n' & H').
    exists pl', n'. destruct oe'; exact H'.
Qed.

Lemma draws_with_plot (lib : StatsLib) (p : plot_call) : draws_with (draw lib p) (plot lib p).
Proof.
  intros s. unfold plot.
  destruct (draw lib p); exists (plot_log (env s) ++ [p]), (next_fig (env s)); eauto.
Qed.

Lemma draws_with_new_figure : draws_with None new_figure.
Proof. intros s. exists (plot_log (env s)), (S (next_fig (env s))). eauto. Qed.

Lemma draws_with_subplots (lib : StatsLib) (r c : nat) :
  draws_with (draw lib (Subplots r c)) (subplots lib r c).
Proof.
  pose proof (draws_with_bind _ _ _ (λ _, new_figure) (draws_with_plot lib (Subplots r c))
                (λ _, draws_with_new_figure)) as H.
  by destruct (draw lib (Subplots r c)).
Qed.

Lemma draws_with_eq {A} (oe oe' : option exn) (c : M A) :
  draws_with oe c → oe = oe' → draws_with oe' c.
Proof. by intros H <-. Qed.

Ltac draws_in_order lib :=
  eapply draws_with_eq;
  [ repeat (apply draws_with_bind; [| intros ?]); apply draws_with_plot
  | repeat match goal with |- context [draw lib ?p] => destruct (draw lib p) end;
    reflexivity ].

Lemma draws_with_draw_normalidade (lib : StatsLib) (var_cat : string) (residuos : list float) :
  draws_with (first_raise lib (tail (drawings_normalidade var_cat residuos)))
    (draw_normalidade lib var_cat residuos).
Proof.
  unfold draw_normalidade, drawings_normalidade. cbn [tail].
  case_bool_decide; cbn [app first_raise]; draws_in_order lib.
Qed.

Lemma draws_with_draw_boxplot (lib : StatsLib) (var_cat col_preco : string) (d : frame) :
  draws_with (first_raise lib (tail (drawings_boxplot lib var_cat col_preco d)))
    (draw_boxplot lib var_cat col_preco d).
Proof.
  unfold draw_boxplot, drawings_boxplot. cbn [tail first_raise]. draws_in_order lib.
Qed.

Lemma stage_outcome_intro (lib : StatsLib) (key : string) (r c : nat) (drawing : M unit)
    (ps : list plot_call) :
  draws_with (first_raise lib ps) drawing →
  stage_outcome key (first_raise lib (Subplots r c :: ps))
    (fig ← subplots lib r c; drawing ;; setplot key fig).
Proof.
  intros Hd. cbn [first_raise].
  pose proof (draws_with_subplots lib r c) as Hs.
  intros s. rewrite bind_run.
  destruct (Hs s) as (pl & n & H). destruct (draw lib (Subplots r c)) as [e |].
  - rewrite H. by exists pl, n, 0.
  - destruct H as [fig ->]. rewrite bind_run.
    destruct (Hd (drawn s pl n)) as (pl' & n' & H').
    destruct (first_raise lib ps) as [e |].
    + rewrite H'. by exists pl', n', 0.
    + destruct H' as [[] ->]. by exists pl', n', fig.
Qed.

Lemma plot_normalidade_outcome (lib : StatsLib) (var_cat : string) (residuos : list float) :
  stage_outcome "normalidade" (first_raise lib (drawings_normalidade var_cat residuos))
    (plot_normalidade lib var_cat residuos).
Proof.
  exact (stage_outcome_intro lib _ 1 2 _ _ (draws_with_draw_normalidade lib var_cat residuos)).
Qed.

Lemma plot_boxplot_outcome (lib : StatsLib) (var_cat col_preco : string) (d : frame) :
  stage_outcome "boxplot" (first_raise lib (drawings_boxplot lib var_cat col_preco d))
    (plot_boxplot lib var_cat col_preco d).
Proof.
  exact (stage_outcome_intro lib _ 1 1 _ _ (draws_with_draw_boxplot lib var_cat col_preco d)).
Qed.

Lemma wp_ret {A} (a : A) Q X s : Q a s → wp (mret a) Q X s.
Proof. done. Qed.

Lemma wp_raise {A} (e : exn) (Q : A → state → Prop) X s : X e s → wp (raise e) Q X s.
Proof. done. Qed.

Lemma wp_bind {A B} (c : M A) (k : A → M B) Q X s :
  wp c (λ a s', wp (k a) Q X s') X s → wp (c ≫= k) Q X s.
Proof. unfold wp. rewrite bind_run. by destruct (c s) as [[e | a] s']. Qed.

Lemma wp_setitem (k : string) (v : value) Q X s :
  Q tt {| results := <[k := v]> (results s); plots := plots s; env := env s |} →
  wp (setitem k v) Q X s.
Proof. done. Qed.

Lemma wp_stat {A} (c : stat_call) (o : exn + A) Q X s :
  match o with
  | inr a => Q a (with_env (log_stat c) s)
  | inl e => X e (with_env (log_stat c) s)
  end →
  wp (stat c o) Q X s.
Proof. unfold wp, stat. by destruct o. Qed.

Lemma wp_try_except {A} (c : M A) (h : exn → M A) Q X s :
  wp c Q (λ e s', wp (h e) Q X s') s → wp (try_except c h) Q X s.
Proof. unfold wp, try_except. by destruct (c s) as [[e | a] s']. Qed.

Lemma wp_stage (key : string) (oe : option exn) (c : M unit) (Q : unit → state → Prop) X s :
  stage_outcome key oe c →
  (∀ pl n fig,
     match oe with
     | Some e => X e (drawn s pl n)
     | None => Q tt {| results := results s; plots := <[key := fig]> (plots s);
                       env := {| stat_log := stat_log (env s); plot_log := pl; next_fig := n |} |}
     end) →
  wp c Q X s.
Proof.
  intros H HQ. unfold wp. destruct (H s) as (pl & n & fig & ->).
  specialize (HQ pl n fig). by destruct oe.
Qed.

Lemma wp_perform (lib : StatsLib) (d : frame) (v c : string) (w : world)
    (Φ : record → world → Prop) :
  wp (selector_body lib d v c) (λ _ s, Φ (record_of s) (env s)) (λ _ _, False) (initial_state v w) →
  ∃ r w', perform_anova_for_variable lib d v c w = (inr r, w') ∧ Φ r w'.
Proof.
  unfold wp, perform_anova_for_variable.
  destruct (selector_body lib d v c (initial_state v w)) as [[e | a] s]; [done |].
  intros H. by eexists _, _.
Qed.


Lemma wp_returned (lib : StatsLib) (d : frame) (v c : string) (w : world)
    (Φ : record → world → Prop) :
  wp (selector_body lib d v c) (λ _ s, Φ (record_of s) (env s)) (λ _ _, False) (initial_state v w) →
  ∀ r w', returned lib d v c w r w' → Φ r w'.
Proof.
  intros H r w' Hr. apply wp_perform in H as (r0 & w0 & H0 & H).
  unfold returned in Hr. rewrite H0 in Hr. by injection Hr as <- <-.
Qed.

(** ** Exploring the paths of the selector *)

(** One step of the selector: the rule of the statement at the head; the
    outcome of a library routine is read from a hypothesis or split. *)
Ltac wp_known o :=
  first
    [ match goal with H : o = _ |- _ => rewrite H end
    | let o' := eval vm_compute in o in
      lazymatch o' with
      | inl _ => idtac | inr _ => idtac | Some _ => idtac | None => idtac
      | true => idtac | false => idtac
      end;
      change o with o'
    | let E := fresh "E" in destruct o eqn:E ];
  cbv iota.

Ltac wp_simpl :=
  cbv beta;
  cbn [with_env log_stat results plots env stat_log plot_log next_fig
       initial_state drawn].

Ltac wp_stage_of lem :=
  lazymatch type of lem with
  | stage_outcome ?key ?oe ?c =>
      apply (wp_stage key oe c _ _ _ lem); intros ? ? ?; wp_known oe
  end.

Ltac wp_step :=
  lazymatch goal with
  | |- wp (mret _) _ _ _ => apply wp_ret
  | |- wp (raise _) _ _ _ => apply wp_raise
  | |- wp (setitem _ _) _ _ _ => apply wp_setitem
  | |- wp (stat _ ?o) _ _ _ => apply wp_stat; wp_known o
  | |- wp (try_except _ _) _ _ _ => apply wp_try_except
  | |- wp (plot_normalidade ?l ?v ?r) _ _ _ =>
      wp_stage_of (plot_normalidade_outcome l v r)
  | |- wp (plot_boxplot ?l ?v ?c ?d) _ _ _ =>
      wp_stage_of (plot_boxplot_outcome l v c d)
  | |- wp (mbind _ _) _ _ _ => apply wp_bind
  | |- wp (if bool_decide ?P then _ else _) _ _ _ =>
      first
        [ rewrite (bool_decide_eq_true_2 P) by assumption
        | rewrite (bool_decide_eq_false_2 P) by assumption
        | let b := eval vm_compute in (bool_decide P) in
          lazymatch b with true => idtac | false => idtac end;
          change (bool_decide P) with b; cbv iota
        | destruct (bool_decide_reflect P) ]
  | |- wp (if ?b then _ else _) _ _ _ => wp_known b
  | |- wp (let 'pair _ _ := ?p in _) _ _ _ => destruct p
  | |- wp (match ?o with Some _ => _ | None => _ end) _ _ _ => wp_known o
  | |- wp (selector_body _ _ _ _) _ _ _ => unfold selector_body
  | |- wp (try_body _ _ _ _) _ _ _ => unfold try_body
  | |- wp (normality_check _ _) _ _ _ => unfold normality_check
  | |- wp (homogeneity_check _ _) _ _ _ => unfold homogeneity_check
  | |- wp (kruskal_step _ _ _ _) _ _ _ => unfold kruskal_step
  | |- wp (index_or_raise _ _) _ _ _ => unfold index_or_raise
  | |- wp (getitem _ _) _ _ _ => unfold getitem
  end; wp_simpl.

Ltac wp_run := wp_simpl; repeat wp_step.

(** At the end of a path: read the dictionary and the log. *)
Ltac read_log :=
  unfold made, new_calls;
  cbn [with_env log_stat results plots env stat_log plot_log next_fig];
  rewrite <- ?app_assoc;
  rewrite ?drop_app_length, ?drop_all;
  cbn [app];
  rewrite ?elem_of_cons, ?elem_of_nil.

Ltac read_log_in H :=
  unfold made, new_calls in H;
  cbn [with_env log_stat results plots env stat_log plot_log next_fig] in H;
  rewrite <- ?app_assoc in H;
  rewrite ?drop_app_length, ?drop_all in H;
  cbn [app] in H;
  rewrite ?elem_of_cons, ?elem_of_nil in H.

Lemma lookup_build {V} (k : string) (l : list (string * V)) :
  build l !! k = assoc k l.
Proof.
  induction l as [| [k' v] l IH]; [apply lookup_empty |].
  cbn [build foldr assoc fst snd]. destruct (String.eqb_spec k' k) as [-> | Hne].
  - apply lookup_insert_eq.
  - rewrite lookup_insert_ne by done. exact IH.
Qed.

Ltac reify_map V m :=
  lazymatch m with
  | <[?k := ?v]> ?m' => let l := reify_map V m' in constr:((k, v) :: l)
  | ∅ => constr:(@nil (string * V))
  end.

Ltac read_lookup :=
  match goal with
  | |- context [@lookup _ _ _ _ ?k ?m] =>
      lazymatch m with
      | <[_ := _]> _ => idtac
      | ∅ => idtac
      end;
      lazymatch type of m with
      | gmap string ?V =>
          let l := reify_map V m in
          let o := eval cbv [assoc String.eqb Ascii.eqb Bool.eqb] in (assoc k l) in
          replace (m !! k) with o by (symmetry; exact (lookup_build k l))
      end
  end.

Ltac read_fields :=
  cbn [record_of fields plot_handles results plots env];
  repeat read_lookup.

Ltac selector_paths :=
  lazymatch goal with
  | |- ∀ r w', returned ?lib ?d ?v ?c ?w r w' → @?Φ r w' =>
      let P := fresh "Φ" in
      pose (P := Φ);
      change (∀ r w', returned lib d v c w r w' → P r w');
      apply (wp_returned lib d v c w P); wp_run; subst P; cbv beta; read_fields
  end.

(** The same on a concrete library: one path. *)
Ltac selector_eval :=
  lazymatch goal with
  | |- ∃ r w', perform_anova_for_variable ?lib ?d ?v ?c ?w = (inr r, w') ∧ @?Φ r w' =>
      let P := fresh "Φ" in
      pose (P := Φ);
      change (∃ r w', perform_anova_for_variable lib d v c w = (inr r, w') ∧ P r w');
      apply (wp_perform lib d v c w P); wp_run; subst P; cbv beta; read_fields
  end.

(** Split on the float comparisons a path left undecided. *)
Ltac split_verdicts :=
  unfold fallback_trigger in *;
  repeat match goal with
    | H : context [(?a <=? ?b)%float] |- _ => destruct (a <=? b)%float
    | H : context [(?a <? ?b)%float] |- _ => destruct (a <? b)%float
    | |- context [(?a <=? ?b)%float] => destruct (a <=? b)%float
    | |- context [(?a <? ?b)%float] => destruct (a <? b)%float
    end;
  cbn [negb orb] in *.

(** ** Two runs on the same sample *)

(** Whatever the world a run starts from, it returns the same dictionary,
    makes the same statistics calls and stores figures under the same keys. *)
Lemma selector_runs_agree (lib : StatsLib) (df_analysis : frame)
    (var_cat col_preco : string) (w1 w2 : world) :
  ∃ r1 w1' r2 w2',
    perform_anova_for_variable lib df_analysis var_cat col_preco w1 = (inr r1, w1') ∧
    perform_anova_for_variable lib df_analysis var_cat col_preco w2 = (inr r2, w2') ∧
    fields r1 = fields r2 ∧
    new_calls w1 w1' = new_calls w2 w2' ∧
    dom (plot_handles r1) = dom (plot_handles r2).
Proof.
  cut (∃ r1 w1',
         perform_anova_for_variable lib df_analysis var_cat col_preco w1 = (inr r1, w1') ∧
         ∃ r2 w2',
           perform_anova_for_variable lib df_analysis var_cat col_preco w2 = (inr r2, w2') ∧
           fields r1 = fields r2 ∧
           new_calls w1 w1' = new_calls w2 w2' ∧
           dom (plot_handles r1) = dom (plot_handles r2)).
  { intros (r1 & w1' & H1 & r2 & w2' & H2 & H). by exists r1, w1', r2, w2'. }
  selector_eval.
  all: selector_eval.
  all: split_and!; [reflexivity | read_log; reflexivity |].
  all: cbn [record_of plot_handles plots]; by rewrite ?dom_insert_L.
Qed.

(** ** The groups, level by level *)

Lemma unique_elem_of (d : frame) (c : level) :
  c ∈ unique d ↔ ∃ y, (Some c, y) ∈ d.
Proof.
  unfold unique. destruct (unique_from_spec [] (factor_values d)) as [_ ->].
  unfold factor_values. rewrite list_elem_of_omap. split.
  - intros [[[[l |] y] [Hin Hl]] _]; cbn in Hl; [| done].
    exists y. by simplify_eq.
  - intros [y Hy]. split; [| apply not_elem_of_nil]. by exists (Some c, y).
Qed.

Lemma select_level_clean (d : frame) (c : level) :
  dropna_values (select_level (dropna d) c) = select_level (dropna d) c.
Proof.
  unfold dropna_values, select_level. apply filter_all.
  apply Forall_fmap, Forall_forall. intros r Hr. cbn.
  apply list_elem_of_In, List.filter_In in Hr as [Hr _]. apply list_elem_of_In in Hr.
  pose proof (dropna_notna d) as Hna. rewrite Forall_forall in Hna.
  specialize (Hna r Hr). unfold notna in Hna. by destruct r as [[l |] y].
Qed.

Lemma select_level_responses (d : frame) (c : level) :
  select_level d c = responses_of_level d c.
Proof.
  unfold select_level, responses_of_level, has_level.
  induction d as [| [[l |] y] d IH]; cbn [List.filter fmap list_fmap omap list_omap fst snd].
  - done.
  - destruct (decide (Some l = Some c)) as [[= ->] | Hne].
    + rewrite bool_decide_eq_true_2 by done. cbn. by rewrite IH.
    + rewrite bool_decide_eq_false_2 by congruence. exact IH.
  - destruct (decide (None = Some c)); [done | exact IH].
Qed.

(** The position [index] finds is the first place of the value. *)
Lemma list_index_first (x : float) (l : list float) (i : nat) :
  list_index x l = Some i ↔
  (∃ y, l !! i = Some y ∧ (y =? x)%float = true) ∧
  ∀ j y, (j < i)%nat → l !! j = Some y → (y =? x)%float = false.
Proof.
  revert i. induction l as [| z l IH]; intros i; cbn [list_index].
  - split; [done |]. by intros [(y & Hy & _) _].
  - destruct (z =? x)%float eqn:Ez.
    + split.
      * intros [= <-]. split; [by exists z |]. intros j y Hj. lia.
      * intros [(y & Hy & Hyx) Hfirst]. destruct i as [| i]; [done |].
        specialize (Hfirst 0%nat z ltac:(lia) eq_refl). congruence.
    + destruct i as [| i].
      * split; [by destruct (list_index x l) |].
        intros [(y & [= <-] & Hyx) _]. congruence.
      * split.
        -- cbn [fmap option_fmap option_map]. intros Hk.
           destruct (list_index x l) as [k |]; [| done]. injection Hk as <-.
           destruct (IH k) as [[Hat Hfirst] _]; [done |]. split; [exact Hat |].
           intros [| j] y Hj; [by intros [= <-] | apply Hfirst; lia].
        -- intros [Hat Hfirst].
           assert (list_index x l = Some i) as ->; [| done].
           apply IH. split; [exact Hat |].
           intros j y Hj. apply (Hfirst (S j)). lia.
Qed.

Lemma first_raise_none (lib : StatsLib) (ps : list plot_call) :
  Forall (λ p, draw lib p = None) ps → first_raise lib ps = None.
Proof. induction 1 as [| p ps Hp _ IH]; [done |]. cbn. by rewrite Hp. Qed.


(** ** Reading a displayed dictionary *)

Ltac render_fields :=
  unfold render, show_anova, show_normality, show_levene, show_kruskal, show_boxplot,
    levene_section, plots_of;
  read_fields;
  cbn [unpack truth mbind option_bind mret option_ret app];
  repeat read_lookup;
  repeat match goal with
    | |- context [p_valor_anova ?v ?t] => destruct (p_valor_anova v t)
    end;
  cbn [unpack truth mbind option_bind mret option_ret app].

Ltac find_widget :=
  first [ apply list_elem_of_here | apply list_elem_of_further; find_widget ].

Ltac unfold_widgets :=
  unfold anova_significant, anova_not_significant, residuals_normal, residuals_not_normal,
    variances_homogeneous, variances_not_homogeneous, levene_not_performed, kruskal_title,
    kruskal_significant, kruskal_not_significant in *.

(** A widget is not in a list all of whose elements differ from it. *)
Ltac widget_absent H :=
  repeat (apply elem_of_cons in H as [H | H]; [discriminate H |]);
  by apply elem_of_nil in H.

(** A membership that is equivalent to a decided fact. *)
Ltac widget_iff :=
  let H := fresh "H" in
  split; intros H;
  [ first [ done | exfalso; widget_absent H ]
  | first [ discriminate H | find_widget | by exfalso ] ].

(** ** Comparisons with NaN *)

Lemma nan_is_nan (p : float) :
  is_nan p = true → FloatOps.Prim2SF p = SpecFloat.S754_nan.
Proof.
  unfold is_nan. rewrite FloatAxioms.eqb_spec. unfold SpecFloat.SFeqb, SpecFloat.SFcompare.
  destruct (FloatOps.Prim2SF p) as [s | s | | s m e]; [by destruct s | by destruct s | done |].
  rewrite Z.compare_refl, Pos.compare_cont_refl. by destruct s.
Qed.

Lemma nan_compares_false (p q : float) :
  is_nan p = true →
  (p <? q)%float = false ∧ (q <=? p)%float = false.
Proof.
  intros Hp%nan_is_nan. rewrite FloatAxioms.ltb_spec, FloatAxioms.leb_spec, Hp.
  unfold SpecFloat.SFltb, SpecFloat.SFleb, SpecFloat.SFcompare.
  by destruct (FloatOps.Prim2SF q).
Qed.



(** ** Facts about [load_data] *)

Lemma columns_named_elem_of {pd : Pandas} (label : string) (df : table pd) (s : series pd) :
  s ∈ columns_named label df ↔ (label, s) ∈ df.
Proof.
  unfold columns_named. rewrite list_elem_of_fmap. split.
  - intros ([l s'] & -> & Hin). apply list_elem_of_In, List.filter_In in Hin as [Hin Hl].
    apply bool_decide_eq_true in Hl. cbn in Hl. subst l. by apply list_elem_of_In.
  - intros Hin. exists (label, s). split; [done |].
    apply list_elem_of_In, List.filter_In. split; [by apply list_elem_of_In |].
    by apply bool_decide_eq_true.
Qed.

Lemma columns_named_labels {pd : Pandas} (label : string) (df : table pd) :
  columns_named label df ≠ [] ↔ label ∈ df.*1.
Proof.
  rewrite list_elem_of_fmap. split.
  - intros Hne. destruct (columns_named label df) as [| s l] eqn:E; [done |].
    assert (s ∈ columns_named label df) as Hs by (rewrite E; left).
    apply columns_named_elem_of in Hs. by exists (label, s).
  - intros ([l s] & -> & Hin) E. cbn [fst] in E. apply columns_named_elem_of in Hin.
    rewrite E in Hin. by apply elem_of_nil in Hin.
Qed.

Lemma columns_named_NoDup {pd : Pandas} (label : string) (df : table pd) :
  NoDup df.*1 → label ∈ df.*1 → ∃ s, columns_named label df = [s].
Proof.
  unfold columns_named.
  induction df as [| [l s] df IH]; cbn [fmap list_fmap List.filter fst snd].
  - by intros _ ?%elem_of_nil.
  - intros [Hl Hnd]%NoDup_cons Hin. case_bool_decide as E; cbn in E.
    + subst l. exists s. cbn. f_equal.
      destruct (List.filter _ df) as [| [l' s'] rest] eqn:Ef; [done |].
      assert ((l', s') ∈ List.filter (λ c : string * series pd, bool_decide (c.1 = label)) df)
        as Hin' by (rewrite Ef; left).
      apply list_elem_of_In, List.filter_In in Hin' as [Hin' Hl'].
      apply bool_decide_eq_true in Hl'. cbn in Hl'. subst l'.
      destruct Hl. apply list_elem_of_fmap. exists (label, s'). split; [done |].
      by apply list_elem_of_In.
    + apply IH; [done |]. apply elem_of_cons in Hin as [-> | Hin]; done.
Qed.

Lemma filter_raising_inr {A} (p : A → exn + bool) (l kept : list A) :
  filter_raising p l = inr kept →
  (∀ x, x ∈ l → ∃ b, p x = inr b) ∧ (∀ x, x ∈ kept ↔ x ∈ l ∧ p x = inr true).
Proof.
  revert kept. induction l as [| y l IH]; intros kept; cbn [filter_raising].
  - intros [= <-]. split; [by intros x ?%elem_of_nil |].
    intros x. rewrite elem_of_nil. tauto.
  - destruct (p y) as [e | b] eqn:Ey; [done |].
    destruct (filter_raising p l) as [e | kept'] eqn:El; [done |].
    intros [= <-]. destruct (IH kept' eq_refl) as [Hall Hin]. split.
    + intros x [-> | Hx]%elem_of_cons; [by exists b | by apply Hall].
    + intros x. destruct b.
      * rewrite !elem_of_cons, Hin. split.
        -- intros [-> | [Hx Hp]]; [split; [by left | done] | split; [by right | done]].
        -- intros [[-> | Hx] Hp]; [by left | by right].
      * rewrite Hin, elem_of_cons. split.
        -- intros [Hx Hp]. split; [by right | done].
        -- intros [[-> | Hx] Hp]; [congruence | done].
Qed.

Lemma filter_raising_total {A} (p : A → exn + bool) (l : list A) :
  (∀ x, x ∈ l → ∃ b, p x = inr b) → ∃ kept, filter_raising p l = inr kept.
Proof.
  induction l as [| y l IH]; intros Hall; cbn [filter_raising]; [by eexists |].
  destruct (Hall y) as [b ->]; [left |].
  destruct IH as [kept ->]; [intros x Hx; apply Hall; by right |]. by eexists.
Qed.

#[global] Instance str_le_total : Total str_le.
Proof. intros a b. apply String.leb_total. Qed.

Lemma sorted_set_spec (l : list string) :
  Sorted str_le (sorted_set l) ∧ NoDup (sorted_set l) ∧ ∀ x, x ∈ sorted_set l ↔ x ∈ l.
Proof.
  unfold sorted_set. split_and!.
  - apply Sorted_merge_sort, _.
  - rewrite merge_sort_Permutation. apply NoDup_remove_dups.
  - intros x. rewrite merge_sort_Permutation. apply elem_of_remove_dups.
Qed.

Lemma rename_labels {pd : Pandas} (old new : string) (df : table pd) :
  (rename old new df).*1 = (λ l, if bool_decide (l = old) then new else l) <$> df.*1.
Proof. unfold rename. rewrite <- !list_fmap_compose. by apply list_fmap_ext. Qed.

Lemma price_to_numeric_inr {pd : Pandas} (preco : string) (df0 df : table pd) :
  price_to_numeric preco df0 = inr df →
  df.*1 = df0.*1 ∧
  ∃ s, columns_named preco df0 = [s] ∧
       df = (λ c, (c.1, take_rows pd (negb <$> isna pd (to_numeric pd s))
                          (if bool_decide (c.1 = preco) then to_numeric pd s else c.2)))
              <$> df0.
Proof.
  unfold price_to_numeric.
  destruct (columns_named preco df0) as [| s [| s' l]]; [done | | done].
  intros [= <-]. split; [| by exists s].
  rewrite <- !list_fmap_compose. by apply list_fmap_ext.
Qed.


(** What a call of [load_data] that returns a frame has gone through. *)
Lemma load_data_inv (pd : Pandas) (df : table pd) (preco : option string)
    (cats cols : list string) (shown : list widget) :
  load_data pd = (inr (Some df, preco, cats, cols), shown) →
  ∃ raw url df0 nums,
    first_readable pd urls_tentativas = Some (raw, url) ∧
    shown = [load_succeeded url] ∧
    (let cleaned : table pd := (λ c, (clean_name c.1, c.2)) <$> raw in
     (("saleprice" ∈ cleaned.*1) ∧ df0 = cleaned ∧ preco = Some "saleprice"%string) ∨
     (("saleprice" ∉ cleaned.*1) ∧ ("sale_price" ∈ cleaned.*1) ∧
      df0 = rename "sale_price" "saleprice" cleaned ∧ preco = Some "saleprice"%string) ∨
     (("saleprice" ∉ cleaned.*1) ∧ ("sale_price" ∉ cleaned.*1) ∧ df0 = cleaned ∧ preco = None)) ∧
    match preco with
    | Some p => price_to_numeric p df0
    | None => inr df0
    end = inr df ∧
    filter_raising (is_discrete df preco) (List.filter (λ c, is_number pd c.2) df).*1
      = inr nums ∧
    cats = sorted_set
             (List.filter (λ col, bool_decide (Some col ≠ preco))
                ((List.filter (λ c, is_object pd c.2) df).*1 ++ nums)) ∧
    cols = df.*1.
Proof.
  unfold load_data.
  destruct (first_readable pd urls_tentativas) as [[raw url] |]; [| done].
  set (cleaned := (λ c, (clean_name c.1, c.2)) <$> raw).
  destruct (bool_decide_reflect ("saleprice" ∈ cleaned.*1)) as [Hs | Hs];
    [| destruct (bool_decide_reflect ("sale_price" ∈ cleaned.*1)) as [Hu | Hu]].
  all: cbv beta iota zeta.
  - destruct (price_to_numeric "saleprice" cleaned) as [e | df1] eqn:E1; [done |].
    destruct (filter_raising _ _) as [e | nums] eqn:E2; [done |].
    intros [= <- <- <- <- <-].
    exists raw, url, cleaned, nums. split_and!; try done. by left.
  - destruct (price_to_numeric "saleprice" (rename "sale_price" "saleprice" cleaned))
      as [e | df1] eqn:E1; [done |].
    destruct (filter_raising _ _) as [e | nums] eqn:E2; [done |].
    intros [= <- <- <- <- <-].
    exists raw, url, (rename "sale_price" "saleprice" cleaned), nums.
    split_and!; try done. right. by left.
  - destruct (filter_raising _ _) as [e | nums] eqn:E2; [done |].
    intros [= <- <- <- <- <-].
    exists raw, url, cleaned, nums. split_and!; try done. right. by right.
Qed.

Lemma columns_named_length {pd : Pandas} (label : string) (df : table pd) :
  length (columns_named label df) =
  length (List.filter (λ l, bool_decide (l = label)) df.*1).
Proof.
  unfold columns_named. rewrite length_fmap.
  induction df as [| [l s] df IH]; [done |]. cbn [List.filter fmap list_fmap fst].
  destruct (bool_decide (l = label)); cbn [length]; by rewrite IH.
Qed.

Lemma columns_named_single {pd : Pandas} (label : string) (df df0 : table pd) (s0 : series pd) :
  df.*1 = df0.*1 → columns_named label df0 = [s0] → ∃ s, columns_named label df = [s].
Proof.
  intros Hl H0. pose proof (columns_named_length label df) as Hlen.
  rewrite Hl, <- columns_named_length, H0 in Hlen.
  destruct (columns_named label df) as [| s [| ? ?]]; try done. by exists s.
Qed.

Lemma cleaned_labels {pd : Pandas} (raw : table pd) :
  ((λ c : string * series pd, (clean_name c.1, c.2)) <$> raw).*1 = clean_name <$> raw.*1.
Proof. rewrite <- !list_fmap_compose. by apply list_fmap_ext. Qed.

(** ** The display reads what the selector stores *)

Lemma render_returned (lib : StatsLib) (df_analysis : frame)
    (var_cat col_preco : string) (w : world) (r : record) (w' : world) :
  returned lib df_analysis var_cat col_preco w r w' →
  ∃ ws,
    render r = Some ws ∧
    (fields r !! "error" = None →
     ∃ t fig_norm fig_box body,
       fields r !! "anova_table" = Some (VTable t) ∧
       plot_handles r !! "normalidade" = Some fig_norm ∧
       plot_handles r !! "boxplot" = Some fig_box ∧
       Dataframe (VTable t) ∈ ws ∧
       Expander expander_label body ∈ ws ∧
       Pyplot fig_norm ∈ body ∧
       Pyplot fig_box ∈ ws).
Proof.
  revert r w'. selector_paths.
  all: render_fields.
  all: eexists; split; [reflexivity |]; try done.
  all: intros _; eexists _, _, _, _; split_and!; try reflexivity.
  all: find_widget.
Qed.

(** Every outcome of one iteration of the loop can be shown. *)
Lemma analyse_variable_shown (lib : StatsLib) (d : DataFrame) (coluna_preco var : string)
    (w : world) :
  ∃ ev w' shown,
    analyse_variable lib d coluna_preco var w = (inr ev, w') ∧
    show_event ev = Some shown.
Proof.
  unfold analyse_variable.
  destruct (empty_frame _ || bool_decide _); [by eexists _, _, _ |].
  destruct (selector_runs_agree lib (dropna (slice d var)) var coluna_preco w w)
    as (r & w' & _ & _ & Hr & _).
  rewrite Hr. destruct (render_returned _ _ _ _ _ _ _ Hr) as (ws & Hws & _).
  destruct (fields r !! "error"); by eexists _, _, _.
Qed.

(** The loop shows, for each selected variable in turn, its subheader and
    then what the outcome of its analysis shows; it never aborts, and its
    outcomes are those of [analysis_loop]. *)
Lemma show_loop_shown (lib : StatsLib) (d : DataFrame) (coluna_preco : string)
    (vars : list string) (w : world) :
  ∃ evs w' shown,
    analysis_loop lib d coluna_preco vars w = ((evs, None), w') ∧
    length evs = length vars ∧
    Forall2 (λ ev ws, show_event ev = Some ws) evs shown ∧
    show_loop lib d coluna_preco vars w =
      ((concat (zip_with (λ var ws, subheader_of var :: ws) vars shown), None), w').
Proof.
  revert w. induction vars as [| var vars IH]; intros w; cbn [analysis_loop show_loop].
  - exists [], w, []. split_and!; [done | done | constructor | done].
  - destruct (analyse_variable_shown lib d coluna_preco var w) as (ev & w1 & ws & -> & Hws).
    rewrite Hws. destruct (IH w1) as (evs & w' & shown & -> & Hlen & Hall & ->).
    exists (ev :: evs), w', (ws :: shown).
    split_and!; [done | by cbn; rewrite Hlen | by constructor | done].
Qed.

(** ** Rejection *)

(** C2: if, after rows with a missing factor or response are dropped, the
    factor has fewer than 2 distinct levels or fewer than 10 rows remain, the
    selector returns the error record and leaves the world as it was: no
    fit, no test, no drawing was logged. *)
Theorem insufficient_sample_rejected (lib : StatsLib) (df_analysis : frame)
    (var_cat col_preco : string) (w : world) :
  (nunique (dropna df_analysis) < 2)%Z ∨ (len (dropna df_analysis) < 10)%Z →
  perform_anova_for_variable lib df_analysis var_cat col_preco w =
    (inr {| fields := <["error" := VStr insufficient_msg]>
                       (<["plots" := VPlots]> (<["var_cat" := VStr var_cat]> ∅));
            plot_handles := ∅ |}, w).
Proof.
  intros H. apply insufficient_true in H.
  unfold perform_anova_for_variable, selector_body. rewrite H. reflexivity.
Qed.

Lemma insufficient_sample_rejected_witness :
  (len (dropna sample9) < 10)%Z ∧
  perform_anova_for_variable lib_flat sample9 "bairro" "saleprice" world0 =
    (inr {| fields := <["error" := VStr insufficient_msg]>
                        (<["plots" := VPlots]> (<["var_cat" := VStr "bairro"]> ∅));
            plot_handles := ∅ |}, world0).
Proof.
  split; [by vm_compute |].
  apply (insufficient_sample_rejected lib_flat sample9 "bairro" "saleprice" world0).
  right. by vm_compute.
Defined.

(** ** The reported p-value *)

Lemma loc_PR_F_labelled (label : string) (t : anova_table) :
  (label ∈ t.*1) →
  ∃ t1 row t2, t = t1 ++ (label, row) :: t2 ∧ (label ∉ t1.*1) ∧
               loc_PR_F label t = Some (PR_F row).
Proof.
  induction t as [| [l row] t IH]; [by intros ?%elem_of_nil |].
  intros Hin. cbn [loc_PR_F]. case_bool_decide as Hl.
  - subst l. exists [], row, t. split_and!; [done | apply not_elem_of_nil | done].
  - apply elem_of_cons in Hin as [-> | Hin]; [done |].
    destruct (IH Hin) as (t1 & row' & t2 & -> & Hnot & ->).
    exists ((l, row) :: t1), row', t2. split_and!; [done | | done].
    cbn. rewrite not_elem_of_cons. auto.
Qed.

Lemma p_valor_anova_labelled (var_cat : string) (t : anova_table) :
  (term var_cat ∈ t.*1) →
  ∃ t1 row t2, t = t1 ++ (term var_cat, row) :: t2 ∧ (term var_cat ∉ t1.*1) ∧
               p_valor_anova var_cat t = Some (PR_F row).
Proof.
  intros Hin. unfold p_valor_anova, in_index.
  rewrite bool_decide_eq_true_2 by done. by apply loc_PR_F_labelled.
Qed.

Lemma p_valor_anova_fallback (var_cat : string) (t : anova_table) :
  (term var_cat ∉ t.*1) →
  p_valor_anova var_cat t = (λ lr, PR_F lr.2) <$> head t.
Proof.
  intros Hin. unfold p_valor_anova, in_index.
  rewrite bool_decide_eq_false_2 by done. by destruct t.
Qed.


(** What the selector has stored once Step 1 has succeeded, whatever
    happens afterwards. *)
Lemma step1_fields (lib : StatsLib) (df_analysis : frame) (var_cat col_preco : string)
    (w : world) (r : record) (w' : world) (m : fitted lib) (t : anova_table) :
  accepted df_analysis →
  fit_succeeds lib df_analysis var_cat col_preco m t →
  returned lib df_analysis var_cat col_preco w r w' →
  fields r !! "anova_table" = Some (VTable t) ∧
  fields r !! "p_valor_anova" = Some (VNum (p_valor_anova var_cat t)) ∧
  fields r !! "residuos_count" = Some (VInt (len (resid lib m))).
Proof.
  intros Hacc%insufficient_false [Hfit Hanova]. revert r w'.
  selector_paths.
  all: done.
Qed.

(** C6: once the fit and the decomposition have succeeded, the reported
    main-effect p-value is the PR(>F) cell of the first row labelled
    [C(var_cat)] when the index has that label, and otherwise the PR(>F)
    cell of the first row of the table ([None] when the table is empty). *)
Theorem p_value_from_factor_row_or_first (lib : StatsLib) (df_analysis : frame)
    (var_cat col_preco : string) (w : world) (r : record) (w' : world)
    (m : fitted lib) (t : anova_table) :
  accepted df_analysis →
  fit_succeeds lib df_analysis var_cat col_preco m t →
  returned lib df_analysis var_cat col_preco w r w' →
  ((term var_cat ∈ t.*1) →
   ∃ t1 row t2, t = t1 ++ (term var_cat, row) :: t2 ∧ (term var_cat ∉ t1.*1) ∧
                fields r !! "p_valor_anova" = Some (VNum (Some (PR_F row)))) ∧
  ((term var_cat ∉ t.*1) →
   fields r !! "p_valor_anova" = Some (VNum ((λ lr, PR_F lr.2) <$> head t))).
Proof.
  intros Hacc Hfit Hret.
  destruct (step1_fields _ _ _ _ _ _ _ _ _ Hacc Hfit Hret) as (_ & Hp & _).
  rewrite Hp. split; intros Hin.
  - destruct (p_valor_anova_labelled _ _ Hin) as (t1 & row & t2 & Ht & Hnot & ->).
    by exists t1, row, t2.
  - by rewrite (p_valor_anova_fallback _ _ Hin).
Qed.

Lemma p_value_from_factor_row_or_first_witness :
  ∃ r w',
    returned lib12 sample12 "bairro" "saleprice" world0 r w' ∧
    ∃ t1 row t2,
      table12 = t1 ++ (term "bairro", row) :: t2 ∧ (term "bairro" ∉ t1.*1) ∧
      fields r !! "p_valor_anova" = Some (VNum (Some (PR_F row))).
Proof.
  assert (∃ r w',
            perform_anova_for_variable lib12 sample12 "bairro" "saleprice" world0
              = (inr r, w') ∧ True)
    as (r & w' & Hr & _) by (selector_eval; done).
  exists r, w'. split; [exact Hr |].
  apply (p_value_from_factor_row_or_first lib12 sample12 "bairro" "saleprice" world0 r w'
           tt table12).
  - split; by vm_compute.
  - split; reflexivity.
  - exact Hr.
  - vm_compute. constructor.
Defined.




(** ** The normality check *)

(** C3: once the fit and the decomposition have succeeded, the normality
    test is chosen by the number of residuals.  From 3 to 5000: Shapiro-Wilk
    is called (Anderson-Darling is not) and, with its p-value [p], the
    verdict stored is [p >= 0.05].  Above 5000: Anderson-Darling is called
    (Shapiro-Wilk is not) and the verdict stored is
    [statistic < critical value], the critical value being the one at the
    place of the 5 % level (the first place where the table of significance
    levels has 5.0).  Below 3: no test is called, the check raises nothing
    and changes nothing, and the verdict stored is false.  When the library
    returns one residual per row, as statsmodels does, an accepted sample
    has at least 10 residuals and one of the first two cases applies. *)
Theorem normality_test_by_residual_count (lib : StatsLib) (df_analysis : frame)
    (var_cat col_preco : string) (w : world) (r : record) (w' : world)
    (m : fitted lib) (t : anova_table) :
  accepted df_analysis →
  fit_succeeds lib df_analysis var_cat col_preco m t →
  returned lib df_analysis var_cat col_preco w r w' →
  ((3 ≤ len (resid lib m) ≤ 5000)%Z →
   made w w' (CallShapiro (resid lib m)) ∧
   (∀ x, ¬ made w w' (CallAnderson x)) ∧
   (∀ W p, shapiro lib (resid lib m) = inr (W, p) →
           fields r !! "shapiro_test" = Some (VPair W p) ∧
           fields r !! "normalidade_ok" = Some (VBool (alpha <=? p)%float))) ∧
  ((5000 < len (resid lib m))%Z →
   made w w' (CallAnderson (resid lib m)) ∧
   (∀ x, ¬ made w w' (CallShapiro x)) ∧
   (∀ ad i crit,
      anderson lib (resid lib m) = inr ad →
      five_percent_position (significance_level ad) i →
      critical_values ad !! i = Some crit →
      fields r !! "anderson_test" = Some (VAnderson ad) ∧
      fields r !! "normalidade_ok" = Some (VBool (statistic ad <? crit)%float))) ∧
  ((len (resid lib m) < 3)%Z →
   (∀ x, ¬ made w w' (CallShapiro x)) ∧
   (∀ x, ¬ made w w' (CallAnderson x)) ∧
   (∀ s, normality_check lib (resid lib m) s = (inr false, s)) ∧
   fields r !! "normalidade_ok" = Some (VBool false)) ∧
  (len (resid lib m) = len (dropna df_analysis) → (10 ≤ len (resid lib m))%Z).
Proof.
  intros Hacc Hfit Hret.
  assert (len (resid lib m) = len (dropna df_analysis) → (10 ≤ len (resid lib m))%Z) as Hrows.
  { intros ->. by destruct Hacc. }
  apply insufficient_false in Hacc. destruct Hfit as [Hfit Hanova].
  cut (∀ P Q R S : Prop, (P ∧ Q ∧ R) → S → P ∧ Q ∧ R ∧ S); [| tauto].
  intros Hcut. apply Hcut; [| exact Hrows]. clear Hcut Hrows.
  revert r w' Hret. selector_paths.
  all: split_and!; intros Hlen; try (exfalso; lia); split_and!.
  all: try (intros x Hx; read_log_in Hx; by destruct_or?).
  all: try (read_log; naive_solver).
  all: try (intros; simplify_eq; done).
  all: try (intros ad i crit [= <-] Hpos%list_index_first Hcrit; simplify_eq; done).
  all: intros s; unfold normality_check; by rewrite bool_decide_eq_false_2 by lia.
Qed.

Lemma normality_test_by_residual_count_witness :
  (∃ r w',
     returned lib12 sample12 "bairro" "saleprice" world0 r w' ∧
     made world0 w' (CallShapiro residuos12) ∧
     fields r !! "normalidade_ok" = Some (VBool true)) ∧
  (∃ r w',
     returned lib6000 sample12 "bairro" "saleprice" world0 r w' ∧
     made world0 w' (CallAnderson (resid lib6000 tt)) ∧
     five_percent_position (significance_level anderson12) 2 ∧
     fields r !! "normalidade_ok" = Some (VBool true)) ∧
  (∃ r w',
     returned lib_short sample12 "bairro" "saleprice" world0 r w' ∧
     fields r !! "normalidade_ok" = Some (VBool false)).
Proof.
  split_and!.
  - assert (∃ r w',
              perform_anova_for_variable lib12 sample12 "bairro" "saleprice" world0
                = (inr r, w') ∧ True)
      as (r & w' & Hr & _) by (selector_eval; done).
    exists r, w'. split; [exact Hr |].
    destruct (normality_test_by_residual_count lib12 sample12 "bairro" "saleprice"
                world0 r w' tt table12)
      as ((Hcall & _ & Hverdict) & _ & _);
      [split; by vm_compute | split; reflexivity | exact Hr | split; by vm_compute |].
    split; [exact Hcall |]. by destruct (Hverdict 0.96875%float 0.625%float eq_refl).
  - assert (∃ r w',
              perform_anova_for_variable lib6000 sample12 "bairro" "saleprice" world0
                = (inr r, w') ∧ True)
      as (r & w' & Hr & _) by (selector_eval; done).
    exists r, w'. split; [exact Hr |].
    assert (five_percent_position (significance_level anderson12) 2) as Hpos.
    { split; [by exists 5%float |].
      intros [| [| j]] lvl Hj; [by intros [= <-] | by intros [= <-] | lia]. }
    destruct (normality_test_by_residual_count lib6000 sample12 "bairro" "saleprice"
                world0 r w' tt table12)
      as (_ & (Hcall & _ & Hverdict) & _);
      [split; by vm_compute | split; reflexivity | exact Hr | by vm_compute |].
    split_and!; [exact Hcall | exact Hpos |].
    by destruct (Hverdict anderson12 2%nat 0.78125%float eq_refl Hpos eq_refl).
  - assert (∃ r w',
              perform_anova_for_variable lib_short sample12 "bairro" "saleprice" world0
                = (inr r, w') ∧ True)
      as (r & w' & Hr & _) by (selector_eval; done).
    exists r, w'. split; [exact Hr |].
    destruct (normality_test_by_residual_count lib_short sample12 "bairro" "saleprice"
                world0 r w' tt table12)
      as (_ & _ & (_ & _ & _ & Hverdict) & _);
      [split; by vm_compute | split; reflexivity | exact Hr | by vm_compute |].
    exact Hverdict.
Defined.

(** ** The homogeneity check *)

(** C4: the responses are partitioned by factor level: there is one group
    per level present in the cleaned frame, holding the responses of the
    rows at that level, and every response is in exactly one group.  The
    valid groups are the groups of at least 2 observations.  In every run
    Levene's test is only called on the valid groups and only when at least
    2 of them remain; with fewer than 2 no result is stored and the page
    reports the test as not performed.  For an accepted sample whose fit and
    decomposition succeed and whose normality step raises nothing (the
    normality test returns and the figure of the residuals is drawn, lines
    93-120), Levene's test is called if and only if at least 2 valid groups
    remain; with its p-value [p] the verdict stored is [p >= 0.05]; with
    fewer than 2 valid groups the verdict stored is false. *)
Theorem levene_called_iff_two_valid_groups (lib : StatsLib) (df_analysis : frame)
    (var_cat col_preco : string) (w : world) (r : record) (w' : world) :
  returned lib df_analysis var_cat col_preco w r w' →
  let df_var := dropna df_analysis in
  (NoDup (unique df_var) ∧
   (∀ level, level ∈ unique df_var ↔ ∃ y, (Some level, y) ∈ df_var) ∧
   grupos df_var = responses_of_level df_var <$> unique df_var ∧
   concat (grupos df_var) ≡ₚ snd <$> df_var) ∧
  (∀ g, g ∈ grupos_validos df_var ↔ g ∈ grupos df_var ∧ (2 ≤ len g)%Z) ∧
  (∀ g, made w w' (CallLevene g) →
        g = grupos_validos df_var ∧ (2 ≤ len (grupos_validos df_var))%Z) ∧
  ((len (grupos_validos df_var) < 2)%Z →
   fields r !! "levene_test" = None ∧ levene_section r = LeveneNotPerformed) ∧
  (∀ (m : fitted lib) (t : anova_table),
     accepted df_analysis →
     fit_succeeds lib df_analysis var_cat col_preco m t →
     normality_stage_returns lib var_cat (resid lib m) →
     (made w w' (CallLevene (grupos_validos df_var)) ↔
      (2 ≤ len (grupos_validos df_var))%Z) ∧
     (∀ stat p,
        (2 ≤ len (grupos_validos df_var))%Z →
        levene lib (grupos_validos df_var) = inr (stat, p) →
        fields r !! "levene_test" = Some (VPair stat p) ∧
        fields r !! "homocedasticidade_ok" = Some (VBool (alpha <=? p)%float)) ∧
     ((len (grupos_validos df_var) < 2)%Z →
      fields r !! "homocedasticidade_ok" = Some (VBool false))).
Proof.
  intros Hret. cbv zeta. split.
  { split_and!.
    - apply unique_from_spec.
    - apply unique_elem_of.
    - unfold grupos. apply list_fmap_ext. intros _ c _.
      by rewrite select_level_clean, select_level_responses.
    - apply grupos_partition. }
  split.
  { intros g. unfold grupos_validos. rewrite !list_elem_of_In, List.filter_In.
    by rewrite bool_decide_eq_true. }
  split.
  { revert r w' Hret. selector_paths.
    all: intros g Hg; read_log_in Hg; naive_solver. }
  split.
  { revert r w' Hret. unfold levene_section. selector_paths.
    all: intros Hlen; try (exfalso; lia); done. }
  intros m t Hacc%insufficient_false [Hfit Hanova] (Hshapiro & Handerson & Hdraw).
  apply first_raise_none in Hdraw.
  destruct (decide (3 ≤ len (resid lib m))%Z) as [H3 |];
    [destruct (decide (len (resid lib m) ≤ 5000)%Z) as [H5000 |] |].
  - destruct Hshapiro as (W & p & Hsh); [lia |].
    revert r w' Hret. selector_paths.
    all: split_and!; try (intros; exfalso; lia).
    all: try (read_log; naive_solver).
  - destruct Handerson as (ad & i & crit & Had & Hpos%list_index_first & Hcrit); [lia |].
    revert r w' Hret. selector_paths.
    all: split_and!; try (intros; exfalso; lia).
    all: try (read_log; naive_solver).
  - revert r w' Hret. selector_paths.
    all: split_and!; try (intros; exfalso; lia).
    all: try (read_log; naive_solver).
Qed.

Lemma levene_called_iff_two_valid_groups_witness :
  ∃ r w',
    returned lib12 sample12 "bairro" "saleprice" world0 r w' ∧
    grupos (dropna sample12) =
      [[1; 2; 3; 4; 5; 6]; [2; 4; 6; 8; 10; 12]]%float ∧
    made world0 w' (CallLevene (grupos_validos (dropna sample12))) ∧
    fields r !! "levene_test" = Some (VPair 6.5 0.0078125) ∧
    fields r !! "homocedasticidade_ok" = Some (VBool false).
Proof.
  assert (∃ r w',
            perform_anova_for_variable lib12 sample12 "bairro" "saleprice" world0
              = (inr r, w') ∧ True)
    as (r & w' & Hr & _) by (selector_eval; done).
  exists r, w'. split; [exact Hr |].
  destruct (levene_called_iff_two_valid_groups lib12 sample12 "bairro" "saleprice"
              world0 r w' Hr) as ((_ & _ & Hgroups & _) & _ & _ & _ & Hreached).
  assert (accepted sample12) as Hacc by (split; by vm_compute).
  assert (fit_succeeds lib12 sample12 "bairro" "saleprice" tt table12) as Hfit
    by (split; reflexivity).
  assert (normality_stage_returns lib12 "bairro" (resid lib12 tt)) as Hnorm.
  { split_and!.
    - intros _. by exists 0.96875%float, 0.625%float.
    - intros Hlen. exfalso. by vm_compute in Hlen.
    - by repeat constructor. }
  destruct (Hreached tt table12 Hacc Hfit Hnorm) as (Hcall & Hverdict & _).
  split_and!.
  - rewrite Hgroups. reflexivity.
  - apply Hcall. by vm_compute.
  - by apply (Hverdict 6.5%float 0.0078125%float).
  - by apply (Hverdict 6.5%float 0.0078125%float).
Defined.

(** C10: when fewer than 2 valid groups remain, Levene's test is not
    called and no result is stored; a homogeneity verdict stored in the
    record is then false, as after a failed test, and with it the trigger
    of line 133 holds whatever the normality verdict; the verdict is stored
    as soon as the normality diagnostics have been drawn.  Kruskal-Wallis is
    not called either, and the page reports Levene's test as not
    performed. *)
Theorem skipped_levene_stored_as_false (lib : StatsLib) (df_analysis : frame)
    (var_cat col_preco : string) (w : world) (r : record) (w' : world) :
  returned lib df_analysis var_cat col_preco w r w' →
  (len (grupos_validos (dropna df_analysis)) < 2)%Z →
  (∀ g, ¬ made w w' (CallLevene g)) ∧
  fields r !! "levene_test" = None ∧
  (∀ h, fields r !! "homocedasticidade_ok" = Some (VBool h) →
        h = false ∧ ∀ n, fallback_trigger n h = true) ∧
  (is_Some (plot_handles r !! "normalidade") →
   fields r !! "homocedasticidade_ok" = Some (VBool false)) ∧
  (∀ g, ¬ made w w' (CallKruskal g)) ∧
  levene_section r = LeveneNotPerformed.
Proof.
  intros Hret Hlen. revert r w' Hret. unfold levene_section. selector_paths.
  all: try (exfalso; lia).
  all: split_and!; try done.
  all: try (intros g Hg; read_log_in Hg; by destruct_or?).
  all: try by intros [].
  all: intros h [= <-]; split; [done |]; by intros [].
Qed.

Lemma skipped_levene_stored_as_false_witness :
  ∃ r w',
    returned lib_lonely sample_lonely "bairro" "saleprice" world0 r w' ∧
    (len (grupos_validos (dropna sample_lonely)) < 2)%Z ∧
    fields r !! "levene_test" = None ∧
    fields r !! "homocedasticidade_ok" = Some (VBool false).
Proof.
  assert (∃ r w',
            perform_anova_for_variable lib_lonely sample_lonely "bairro" "saleprice"
              world0 = (inr r, w') ∧
            is_Some (plot_handles r !! "normalidade"))
    as (r & w' & Hr & Hplot) by (selector_eval; done).
  exists r, w'. split_and!; [exact Hr | by vm_compute | |].
  all: destruct (skipped_levene_stored_as_false lib_lonely sample_lonely "bairro"
                   "saleprice" world0 r w' Hr) as (_ & Hnone & _ & Hstored & _);
    [by vm_compute | auto].
Defined.

(** ** The non-parametric fallback *)

(** C1, as stated, fails: with twelve identical prices the fit succeeds,
    the homogeneity verdict stored is false and two valid groups remain,
    but [kruskal] raises; the record carries the error and no
    Kruskal-Wallis result. *)
Lemma kruskal_raises_no_result :
  ¬ kruskal_iff_claim lib_flat sample_flat "bairro" "saleprice" world0.
Proof.
  intros H.
  assert (accepted sample_flat) as Hacc by (split; by vm_compute).
  assert (fit_succeeds lib_flat sample_flat "bairro" "saleprice" tt table_flat)
    as Hfit by (split; reflexivity).
  assert (∃ r w',
            perform_anova_for_variable lib_flat sample_flat "bairro" "saleprice" world0
              = (inr r, w') ∧
            fields r !! "homocedasticidade_ok" = Some (VBool false) ∧
            fields r !! "kruskal_test" = None)
    as (r & w' & Hr & Hh & Hk).
  { selector_eval. done. }
  destruct (H tt table_flat r w' Hacc Hfit Hr) as [_ Hback].
  rewrite Hk in Hback. destruct Hback as [x Hx]; [| done].
  split; [by right | by vm_compute].
Qed.

(** C1, amended: in every run of the selector (in particular for an
    accepted sample whose fit succeeds), Kruskal-Wallis is called if and
    only if both verdicts were stored, one of them is false, and at least 2
    valid groups remain; it is called on exactly the valid groups, those
    Levene's test was called on; its result is in the record if and only if
    it was called and returned (when it raises, the record carries the error
    instead).  So in every record without an error the result is present if
    and only if (normality is false or homogeneity is false) and at least 2
    valid groups exist. *)
Theorem kruskal_called_iff_assumption_fails (lib : StatsLib) (df_analysis : frame)
    (var_cat col_preco : string) (w : world) (r : record) (w' : world) :
  returned lib df_analysis var_cat col_preco w r w' →
  (∀ g, made w w' (CallKruskal g) ↔
        g = grupos_validos (dropna df_analysis) ∧
        (2 ≤ len (grupos_validos (dropna df_analysis)))%Z ∧
        ∃ n h, fields r !! "normalidade_ok" = Some (VBool n) ∧
               fields r !! "homocedasticidade_ok" = Some (VBool h) ∧
               (n = false ∨ h = false)) ∧
  (∀ g, made w w' (CallKruskal g) → made w w' (CallLevene g)) ∧
  (∀ x, fields r !! "kruskal_test" = Some x ↔
        made w w' (CallKruskal (grupos_validos (dropna df_analysis))) ∧
        ∃ k p, kruskal lib (grupos_validos (dropna df_analysis)) = inr (k, p) ∧
               x = VPair k p) ∧
  (fields r !! "error" = None →
   (is_Some (fields r !! "kruskal_test") ↔
    (fields r !! "normalidade_ok" = Some (VBool false) ∨
     fields r !! "homocedasticidade_ok" = Some (VBool false)) ∧
    (2 ≤ len (grupos_validos (dropna df_analysis)))%Z)).
Proof.
  revert r w'. selector_paths.
  all: split_verdicts; try discriminate.
  all: split_and!; [intros g | intros g | intros x | try done; intros _]; read_log.
  all: naive_solver.
Qed.

Lemma kruskal_called_iff_assumption_fails_witness :
  ∃ r w',
    returned lib12 sample12 "bairro" "saleprice" world0 r w' ∧
    made world0 w' (CallKruskal (grupos_validos (dropna sample12))) ∧
    fields r !! "kruskal_test" = Some (VPair 0.625 0.4375).
Proof.
  assert (∃ r w',
            perform_anova_for_variable lib12 sample12 "bairro" "saleprice" world0
              = (inr r, w') ∧
            fields r !! "normalidade_ok" = Some (VBool true) ∧
            fields r !! "homocedasticidade_ok" = Some (VBool false))
    as (r & w' & Hr & Hn & Hh) by (selector_eval; done).
  exists r, w'. split; [exact Hr |].
  destruct (kruskal_called_iff_assumption_fails lib12 sample12 "bairro" "saleprice"
              world0 r w' Hr) as (Hcall & _ & Hres & _).
  assert (made world0 w' (CallKruskal (grupos_validos (dropna sample12)))) as Hmade.
  { apply Hcall. split_and!; [done | by vm_compute |].
    exists true, false. split_and!; [exact Hn | exact Hh | by right]. }
  split; [exact Hmade |].
  apply Hres. split; [exact Hmade |]. by exists 0.625%float, 0.4375%float.
Defined.

(** ** The fallback never comes without the homogeneity test *)

(** C9: in every record the selector returns, a Kruskal-Wallis result comes
    with a Levene result; the Kruskal-Wallis call is made on the valid
    groups (at least 2 of them, each of at least 2 observations), the very
    groups Levene's test was called on before. *)
Theorem kruskal_implies_levene (lib : StatsLib) (df_analysis : frame)
    (var_cat col_preco : string) (w : world) (r : record) (w' : world) :
  returned lib df_analysis var_cat col_preco w r w' →
  (is_Some (fields r !! "kruskal_test") →
   is_Some (fields r !! "levene_test") ∧
   made w w' (CallKruskal (grupos_validos (dropna df_analysis)))) ∧
  (∀ g, made w w' (CallKruskal g) →
        made w w' (CallLevene g) ∧
        g = grupos_validos (dropna df_analysis) ∧
        (2 ≤ len g)%Z ∧ Forall (λ x, (2 ≤ len x)%Z) g).
Proof.
  revert r w'. selector_paths.
  all: split; [try by intros [] | intros g Hg; read_log_in Hg].
  all: try (intros _; split; [done | read_log; naive_solver]).
  all: destruct_or?; simplify_eq.
  all: read_log; split_and!; auto using grupos_validos_sizes.
Qed.

Lemma kruskal_implies_levene_witness :
  ∃ r w',
    returned lib12 sample12 "bairro" "saleprice" world0 r w' ∧
    is_Some (fields r !! "kruskal_test") ∧
    is_Some (fields r !! "levene_test").
Proof.
  assert (∃ r w',
            perform_anova_for_variable lib12 sample12 "bairro" "saleprice" world0
              = (inr r, w') ∧
            is_Some (fields r !! "kruskal_test"))
    as (r & w' & Hr & Hk) by (selector_eval; done).
  exists r, w'. split_and!; [exact Hr | exact Hk |].
  destruct (kruskal_implies_levene lib12 sample12 "bairro" "saleprice" world0 r w' Hr)
    as [Himp _].
  by destruct (Himp Hk).
Defined.

(** ** Exceptions stay inside the selector *)

Lemma analyse_variable_agree (lib : StatsLib) (d : DataFrame) (coluna_preco var : string)
    (w1 w2 : world) :
  ∃ ev1 w1' ev2 w2',
    analyse_variable lib d coluna_preco var w1 = (inr ev1, w1') ∧
    analyse_variable lib d coluna_preco var w2 = (inr ev2, w2') ∧
    same_content ev1 ev2.
Proof.
  unfold analyse_variable.
  destruct (empty_frame _ || bool_decide _); [by eexists _, _, _, _ |].
  destruct (selector_runs_agree lib (dropna (slice d var)) var coluna_preco w1 w2)
    as (r1 & w1' & r2 & w2' & -> & -> & Hf & _ & Hd).
  rewrite <- Hf. destruct (fields r1 !! "error"); by eexists _, _, _, _.
Qed.

Lemma analysis_loop_events (lib : StatsLib) (d : DataFrame) (coluna_preco : string)
    (vars : list string) (w : world) :
  ∃ evs w',
    analysis_loop lib d coluna_preco vars w = ((evs, None), w') ∧
    length evs = length vars ∧
    ∀ i var, vars !! i = Some var →
      ∃ ev, evs !! i = Some ev ∧
            ∀ w0, ∃ ev0 w0',
              analyse_variable lib d coluna_preco var w0 = (inr ev0, w0') ∧
              same_content ev ev0.
Proof.
  revert w. induction vars as [| var vars IH]; intros w; cbn [analysis_loop].
  - exists [], w. split_and!; [done | done |]. intros i var'. by rewrite lookup_nil.
  - destruct (analyse_variable_agree lib d coluna_preco var w w)
      as (ev & w1 & _ & _ & Hev & _ & _).
    rewrite Hev. destruct (IH w1) as (evs & w' & -> & Hlen & Hall).
    exists (ev :: evs), w'. split_and!; [done | by cbn; rewrite Hlen |].
    intros [| i] var'; cbn.
    + intros [= <-]. exists ev. split; [done |]. intros w0.
      destruct (analyse_variable_agree lib d coluna_preco var w w0)
        as (ev1 & w1' & ev0 & w0' & Hev1 & Hev0 & Hsame).
      rewrite Hev in Hev1. injection Hev1 as <- <-. by exists ev0, w0'.
    + apply Hall.
Qed.

Lemma selector_catches (lib : StatsLib) (df_analysis : frame)
    (var_cat col_preco : string) (w : world) :
  ∃ r w',
    perform_anova_for_variable lib df_analysis var_cat col_preco w = (inr r, w') ∧
    (∀ f d e, made w w' (CallOls f d) → ols_fit lib f d = inl e →
              fields r !! "error" = Some (VStr e)) ∧
    (∀ m e, made w w' CallAnovaLm →
            ols_fit lib (formula col_preco var_cat) (dropna df_analysis) = inr m →
            anova_lm lib m = inl e →
            fields r !! "error" = Some (VStr e)) ∧
    (∀ x e, made w w' (CallShapiro x) → shapiro lib x = inl e →
            fields r !! "error" = Some (VStr e)) ∧
    (∀ x e, made w w' (CallAnderson x) → anderson lib x = inl e →
            fields r !! "error" = Some (VStr e)) ∧
    (∀ g e, made w w' (CallLevene g) → levene lib g = inl e →
            fields r !! "error" = Some (VStr e)) ∧
    (∀ g e, made w w' (CallKruskal g) → kruskal lib g = inl e →
            fields r !! "error" = Some (VStr e)).
Proof.
  selector_eval.
  all: split_and!; intros ? ? ?; try intros ?; try intros ?.
  all: match goal with H : made _ _ _ |- _ => read_log_in H end.
  all: destruct_or?; simplify_eq; congruence.
Qed.

(** C5: the selector always returns; an exception raised by the fit, the
    decomposition or any statistical test it calls is caught and its message
    stored under ["error"] in the returned record.  The loop over the
    selected variables never aborts and shows exactly one event per
    variable, in order; each event is what the analysis of that variable
    alone shows, whatever happened to the variables before it. *)
Theorem exceptions_caught_per_variable (lib : StatsLib) :
  (∀ df_analysis var_cat col_preco w,
     ∃ r w',
       perform_anova_for_variable lib df_analysis var_cat col_preco w = (inr r, w') ∧
       (∀ f d e, made w w' (CallOls f d) → ols_fit lib f d = inl e →
                 fields r !! "error" = Some (VStr e)) ∧
       (∀ m e, made w w' CallAnovaLm →
               ols_fit lib (formula col_preco var_cat) (dropna df_analysis) = inr m →
               anova_lm lib m = inl e →
               fields r !! "error" = Some (VStr e)) ∧
       (∀ x e, made w w' (CallShapiro x) → shapiro lib x = inl e →
               fields r !! "error" = Some (VStr e)) ∧
       (∀ x e, made w w' (CallAnderson x) → anderson lib x = inl e →
               fields r !! "error" = Some (VStr e)) ∧
       (∀ g e, made w w' (CallLevene g) → levene lib g = inl e →
               fields r !! "error" = Some (VStr e)) ∧
       (∀ g e, made w w' (CallKruskal g) → kruskal lib g = inl e →
               fields r !! "error" = Some (VStr e))) ∧
  (∀ d coluna_preco variaveis_selecionadas w,
     ∃ evs w',
       analysis_loop lib d coluna_preco variaveis_selecionadas w = ((evs, None), w') ∧
       length evs = length variaveis_selecionadas ∧
       ∀ i var, variaveis_selecionadas !! i = Some var →
         ∃ ev, evs !! i = Some ev ∧
               ∀ w0, ∃ ev0 w0',
                 analyse_variable lib d coluna_preco var w0 = (inr ev0, w0') ∧
                 same_content ev ev0).
Proof.
  split.
  - intros. apply selector_catches.
  - intros. apply analysis_loop_events.
Qed.

(** ** Determinism *)


(** ** The shape of the returned dictionary *)

(** X1: every dictionary the selector returns keeps the two entries it starts
    with (["var_cat"] and ["plots"]).  It has no ["error"] entry exactly when
    the boxplot figure was stored, that is when the run reached its last
    statement; such a dictionary is complete: the table, the p-value read
    from it, the residual count, both verdicts and the normality figure are
    all there, with the types the page reads them at. *)
Theorem record_without_error_is_complete (lib : StatsLib) (df_analysis : frame)
    (var_cat col_preco : string) (w : world) (r : record) (w' : world) :
  returned lib df_analysis var_cat col_preco w r w' →
  fields r !! "var_cat" = Some (VStr var_cat) ∧
  fields r !! "plots" = Some VPlots ∧
  (fields r !! "error" = None ↔ is_Some (plot_handles r !! "boxplot")) ∧
  (fields r !! "error" = None →
   (∃ t, fields r !! "anova_table" = Some (VTable t) ∧
         fields r !! "p_valor_anova" = Some (VNum (p_valor_anova var_cat t))) ∧
   (∃ n, fields r !! "residuos_count" = Some (VInt n)) ∧
   (∃ b, fields r !! "normalidade_ok" = Some (VBool b)) ∧
   (∃ h, fields r !! "homocedasticidade_ok" = Some (VBool h)) ∧
   is_Some (plot_handles r !! "normalidade")).
Proof.
  revert r w'. selector_paths.
  all: split_and!; try done; try (split; [done | by intros []]).
  all: try (split; [intros _; by eexists | done]).
  all: intros _; split_and!; by eexists.
Qed.

Lemma record_without_error_is_complete_witness :
  ∃ r w',
    returned lib12 sample12 "bairro" "saleprice" world0 r w' ∧
    fields r !! "error" = None ∧
    is_Some (plot_handles r !! "boxplot") ∧
    fields r !! "anova_table" = Some (VTable table12).
Proof.
  assert (∃ r w',
            perform_anova_for_variable lib12 sample12 "bairro" "saleprice" world0
              = (inr r, w') ∧
            fields r !! "error" = None ∧
            fields r !! "anova_table" = Some (VTable table12))
    as (r & w' & Hr & He & Ht) by (selector_eval; done).
  exists r, w'. split_and!; [exact Hr | exact He | | exact Ht].
  destruct (record_without_error_is_complete lib12 sample12 "bairro" "saleprice"
              world0 r w' Hr) as (_ & _ & Hbox & _).
  by apply Hbox.
Defined.

(** ** One normality test per run *)

(** X2: a returned dictionary never holds both a Shapiro-Wilk and an
    Anderson-Darling result, and a run never calls both tests.  A Shapiro-Wilk
    result comes with a residual count from 3 to 5000, an Anderson-Darling
    result with a count above 5000. *)
Theorem one_normality_test_per_record (lib : StatsLib) (df_analysis : frame)
    (var_cat col_preco : string) (w : world) (r : record) (w' : world) :
  returned lib df_analysis var_cat col_preco w r w' →
  ¬ (is_Some (fields r !! "shapiro_test") ∧ is_Some (fields r !! "anderson_test")) ∧
  (∀ x y, made w w' (CallShapiro x) → ¬ made w w' (CallAnderson y)) ∧
  (is_Some (fields r !! "shapiro_test") →
   ∃ n, fields r !! "residuos_count" = Some (VInt n) ∧ (3 ≤ n ≤ 5000)%Z) ∧
  (is_Some (fields r !! "anderson_test") →
   ∃ n, fields r !! "residuos_count" = Some (VInt n) ∧ (5000 < n)%Z).
Proof.
  revert r w'. selector_paths.
  all: split_and!.
  all: try (intros [[] []]; done).
  all: try (intros x y Hx Hy; read_log_in Hx; read_log_in Hy; by destruct_or?).
  all: try by intros [].
  all: intros _; eexists; split; [done | lia].
Qed.

Lemma one_normality_test_per_record_witness :
  ∃ r w',
    returned lib12 sample12 "bairro" "saleprice" world0 r w' ∧
    is_Some (fields r !! "shapiro_test") ∧
    fields r !! "anderson_test" = None.
Proof.
  assert (∃ r w',
            perform_anova_for_variable lib12 sample12 "bairro" "saleprice" world0
              = (inr r, w') ∧
            is_Some (fields r !! "shapiro_test"))
    as (r & w' & Hr & Hs) by (selector_eval; done).
  exists r, w'. split_and!; [exact Hr | exact Hs |].
  destruct (one_normality_test_per_record lib12 sample12 "bairro" "saleprice"
              world0 r w' Hr) as (Hnot & _).
  destruct (fields r !! "anderson_test") eqn:E; [| done].
  destruct Hnot. by split.
Defined.

(** ** The order of the library calls *)

(** X3: in every run the statistics routines are called in the order of the
    source (fit, decomposition, one normality test, Levene, Kruskal-Wallis),
    each at most once.  No call at all is made exactly when the guard of line
    73 rejects the cleaned frame; otherwise the first call is the fit of
    [col_preco ~ C(var_cat)] on the cleaned frame. *)
Theorem library_calls_in_source_order (lib : StatsLib) (df_analysis : frame)
    (var_cat col_preco : string) (w : world) (r : record) (w' : world) :
  returned lib df_analysis var_cat col_preco w r w' →
  StronglySorted lt (call_rank <$> new_calls w w') ∧
  (new_calls w w' = [] ↔ insufficient (dropna df_analysis) = true) ∧
  (insufficient (dropna df_analysis) = false →
   head (new_calls w w') = Some (CallOls (formula col_preco var_cat) (dropna df_analysis))).
Proof.
  revert r w'. selector_paths.
  all: read_log; cbn [fmap list_fmap call_rank head].
  all: split_and!; try done.
  all: repeat (constructor; [| repeat (constructor; [lia |]); by constructor]).
  all: by constructor.
Qed.

Lemma library_calls_in_source_order_witness :
  ∃ r w',
    returned lib12 sample12 "bairro" "saleprice" world0 r w' ∧
    new_calls world0 w' =
      [CallOls "saleprice ~ C(bairro)" sample12; CallAnovaLm; CallShapiro residuos12;
       CallLevene (grupos_validos sample12); CallKruskal (grupos_validos sample12)] ∧
    StronglySorted lt (call_rank <$> new_calls world0 w').
Proof.
  assert (∃ r w',
            perform_anova_for_variable lib12 sample12 "bairro" "saleprice" world0
              = (inr r, w') ∧
            new_calls world0 w' =
              [CallOls "saleprice ~ C(bairro)" sample12; CallAnovaLm; CallShapiro residuos12;
               CallLevene (grupos_validos sample12); CallKruskal (grupos_validos sample12)])
    as (r & w' & Hr & Hc) by (selector_eval; read_log; reflexivity).
  exists r, w'. split_and!; [exact Hr | exact Hc |].
  by destruct (library_calls_in_source_order lib12 sample12 "bairro" "saleprice"
                 world0 r w' Hr) as (Hs & _).
Defined.

(** ** The groups of the cleaned frame *)

(** X4: on the cleaned frame there is one group per level of the factor, in
    the order the levels first appear; no group is empty; the [dropna()] of
    line 124 removes nothing; and the sizes of the groups add up to the
    number of rows.  The valid groups are at most as many as the levels. *)
Theorem one_nonempty_group_per_level (df_analysis : frame) :
  let df_var := dropna df_analysis in
  grupos df_var = select_level df_var <$> unique df_var ∧
  len (grupos df_var) = nunique df_var ∧
  Forall (λ g, (1 ≤ len g)%Z) (grupos df_var) ∧
  len (concat (grupos df_var)) = len df_var ∧
  (len (grupos_validos df_var) ≤ nunique df_var)%Z.
Proof.
  cbv zeta. set (d := dropna df_analysis).
  assert (grupos d = select_level d <$> unique d) as Hg.
  { unfold grupos. apply list_fmap_ext. intros _ c _. apply select_level_clean. }
  split_and!.
  - exact Hg.
  - unfold nunique, len, grupos. by rewrite length_fmap.
  - rewrite Hg. apply Forall_fmap, Forall_forall. intros c Hc. cbn.
    apply unique_elem_of in Hc as [y Hy]. unfold select_level, len.
    rewrite length_fmap.
    assert ((Some c, y) ∈ List.filter (has_level c) d) as Hin.
    { apply list_elem_of_In, List.filter_In. split; [by apply list_elem_of_In |].
      unfold has_level. cbn. by apply bool_decide_eq_true. }
    destruct (List.filter (has_level c) d); [by apply elem_of_nil in Hin | cbn; lia].
  - subst d. unfold len. by rewrite (grupos_partition df_analysis), length_fmap.
  - unfold grupos_validos, nunique, len, grupos.
    pose proof (List.filter_length_le (λ g, bool_decide (2 ≤ Z.of_nat (length g))%Z)
                  ((λ c, dropna_values (select_level d c)) <$> unique d)) as Hle.
    rewrite length_fmap in Hle. unfold len. lia.
Qed.

(** ** An Anderson-Darling result without the 5 % level *)

(** X5: above 5000 residuals the verdict needs the position of 5.0 among
    the significance levels of the Anderson-Darling result.  When 5.0 is not
    listed, [index] raises; the selector catches it: the returned dictionary
    carries the message of the exception under ["error"], keeps the
    Anderson-Darling result already stored, and has no normality verdict, no
    figure and no homogeneity test. *)
Theorem anderson_without_five_percent_level (lib : StatsLib) (df_analysis : frame)
    (var_cat col_preco : string) (w : world) (r : record) (w' : world)
    (m : fitted lib) (t : anova_table) (ad : AndersonResult) :
  accepted df_analysis →
  fit_succeeds lib df_analysis var_cat col_preco m t →
  returned lib df_analysis var_cat col_preco w r w' →
  (5000 < len (resid lib m))%Z →
  anderson lib (resid lib m) = inr ad →
  list_index 5 (significance_level ad) = None →
  fields r !! "error" = Some (VStr "5.0 is not in list") ∧
  fields r !! "anderson_test" = Some (VAnderson ad) ∧
  fields r !! "normalidade_ok" = None ∧
  fields r !! "homocedasticidade_ok" = None ∧
  plot_handles r = ∅ ∧
  (∀ g, ¬ made w w' (CallLevene g)) ∧
  (∀ g, ¬ made w w' (CallKruskal g)).
Proof.
  intros Hacc%insufficient_false [Hfit Hanova] Hret Hlen Had Hidx.
  revert r w' Hret. selector_paths.
  all: try (exfalso; lia).
  split_and!; try done.
  all: intros g Hg; read_log_in Hg; by destruct_or?.
Qed.

Lemma anderson_without_five_percent_level_witness :
  ∃ r w',
    returned lib_no5 sample12 "bairro" "saleprice" world0 r w' ∧
    fields r !! "error" = Some (VStr "5.0 is not in list") ∧
    fields r !! "anderson_test" = Some (VAnderson anderson_no5).
Proof.
  assert (∃ r w',
            perform_anova_for_variable lib_no5 sample12 "bairro" "saleprice" world0
              = (inr r, w') ∧ True)
    as (r & w' & Hr & _) by (selector_eval; done).
  exists r, w'. split; [exact Hr |].
  destruct (anderson_without_five_percent_level lib_no5 sample12 "bairro" "saleprice"
              world0 r w' tt table12 anderson_no5) as (He & Ha & _).
  - split; by vm_compute.
  - split; reflexivity.
  - exact Hr.
  - by vm_compute.
  - reflexivity.
  - by vm_compute.
  - by split.
Defined.

(** ** What the loop does with one variable *)

Lemma dropna_idempotent (d : frame) : dropna (dropna d) = dropna d.
Proof. unfold dropna at 1. apply filter_all, dropna_notna. Qed.

Lemma selector_first_call (lib : StatsLib) (df_analysis : frame)
    (var_cat col_preco : string) (w : world) :
  insufficient (dropna df_analysis) = false →
  ∃ r w',
    perform_anova_for_variable lib df_analysis var_cat col_preco w = (inr r, w') ∧
    head (new_calls w w') = Some (CallOls (formula col_preco var_cat) (dropna df_analysis)).
Proof.
  intros Hins. selector_eval.
  all: by read_log.
Qed.

(** X6: one iteration of the loop depends on the rows of the two columns
    that have both cells.  With fewer than 2 levels among them the variable
    is skipped and no library routine is called.  With at least 2 levels but
    fewer than 10 such rows the page shows the selector's "insufficient data"
    message, again without any library call.  Otherwise the selector runs,
    its second [dropna] removes nothing, and its first call is the fit on
    exactly those rows. *)
Theorem loop_skips_rejects_or_fits (lib : StatsLib) (d : DataFrame)
    (coluna_preco var_analisada : string) (w : world) :
  let df_analise_var := dropna (slice d var_analisada) in
  ((nunique df_analise_var < 2)%Z →
   analyse_variable lib d coluna_preco var_analisada w = (inr (Skipped var_analisada), w)) ∧
  ((2 ≤ nunique df_analise_var)%Z → (len df_analise_var < 10)%Z →
   analyse_variable lib d coluna_preco var_analisada w =
     (inr (AnalysisError var_analisada (VStr insufficient_msg)), w)) ∧
  ((2 ≤ nunique df_analise_var)%Z → (10 ≤ len df_analise_var)%Z →
   ∃ ev w',
     analyse_variable lib d coluna_preco var_analisada w = (inr ev, w') ∧
     ev ≠ Skipped var_analisada ∧
     head (new_calls w w') =
       Some (CallOls (formula coluna_preco var_analisada) df_analise_var)).
Proof.
  cbv zeta. unfold analyse_variable. set (c := dropna (slice d var_analisada)).
  split_and!.
  - intros Hn. rewrite (bool_decide_eq_true_2 _ Hn). by rewrite orb_true_r.
  - intros Hn Hl.
    assert (empty_frame c = false) as ->.
    { destruct c; [| done]. by vm_compute in Hn. }
    rewrite bool_decide_eq_false_2 by lia. cbn [orb].
    unfold perform_anova_for_variable, selector_body.
    subst c. rewrite dropna_idempotent.
    assert (insufficient (dropna (slice d var_analisada)) = true) as ->.
    { apply insufficient_true. by right. }
    reflexivity.
  - intros Hn Hl.
    assert (empty_frame c = false) as ->.
    { destruct c; [| done]. by vm_compute in Hn. }
    rewrite bool_decide_eq_false_2 by lia. cbn [orb].
    assert (insufficient (dropna c) = false) as Hins.
    { subst c. rewrite dropna_idempotent. by apply insufficient_false. }
    assert (dropna c = c) as Hc by (subst c; apply dropna_idempotent).
    destruct (selector_first_call lib c var_analisada coluna_preco w Hins)
      as (r & w' & -> & Hh).
    rewrite Hc in Hh. destruct (fields r !! "error"); by eexists _, _.
Qed.

Lemma loop_skips_rejects_or_fits_witness :
  ∃ ev w',
    analyse_variable lib12 small_data "saleprice" "bairro" world0 = (inr ev, w') ∧
    ev ≠ Skipped "bairro" ∧
    head (new_calls world0 w') = Some (CallOls "saleprice ~ C(bairro)" sample12).
Proof.
  destruct (loop_skips_rejects_or_fits lib12 small_data "saleprice" "bairro" world0)
    as (_ & _ & Hfit).
  apply Hfit; by vm_compute.
Defined.

(** ** Displaying a returned dictionary *)

(** X7: the display of lines 211-269 can read every dictionary the selector
    returns: each value it unpacks, tests or formats has the type it needs.
    For a dictionary without an error, the only ones the loop displays, the
    guards of lines 212, 241 and 265 always hold: the page shows the ANOVA
    table, the figure of the residuals inside the expander and the boxplot
    after it. *)
Theorem returned_record_is_displayed (lib : StatsLib) (df_analysis : frame)
    (var_cat col_preco : string) (w : world) (r : record) (w' : world) :
  returned lib df_analysis var_cat col_preco w r w' →
  ∃ ws,
    render r = Some ws ∧
    (fields r !! "error" = None →
     ∃ t fig_norm fig_box body,
       fields r !! "anova_table" = Some (VTable t) ∧
       plot_handles r !! "normalidade" = Some fig_norm ∧
       plot_handles r !! "boxplot" = Some fig_box ∧
       Dataframe (VTable t) ∈ ws ∧
       Expander expander_label body ∈ ws ∧
       Pyplot fig_norm ∈ body ∧
       Pyplot fig_box ∈ ws).
Proof. apply render_returned. Qed.

Lemma returned_record_is_displayed_witness :
  ∃ r w' ws,
    returned lib12 sample12 "bairro" "saleprice" world0 r w' ∧
    render r = Some ws ∧
    Dataframe (VTable table12) ∈ ws.
Proof.
  assert (∃ r w',
            perform_anova_for_variable lib12 sample12 "bairro" "saleprice" world0
              = (inr r, w') ∧
            fields r !! "error" = None ∧
            fields r !! "anova_table" = Some (VTable table12))
    as (r & w' & Hr & He & Ht) by (selector_eval; done).
  destruct (returned_record_is_displayed lib12 sample12 "bairro" "saleprice"
              world0 r w' Hr) as (ws & Hws & Hshown).
  destruct (Hshown He) as (t & fn & fb & body & Ht' & _ & _ & Hd & _).
  exists r, w', ws. split_and!; [exact Hr | exact Hws |]. congruence.
Defined.

(** ** A NaN p-value *)

(** X8: a p-value that is NaN never passes a check.  In a returned
    dictionary a Shapiro-Wilk result with a NaN p-value comes with the
    normality verdict false, and a Levene result with a NaN p-value comes
    with the homogeneity verdict false; in a dictionary without an error the
    latter always comes with a Kruskal-Wallis result. *)
Theorem nan_p_value_fails_the_check (lib : StatsLib) (df_analysis : frame)
    (var_cat col_preco : string) (w : world) (r : record) (w' : world) :
  returned lib df_analysis var_cat col_preco w r w' →
  (∀ stat p b,
     fields r !! "shapiro_test" = Some (VPair stat p) → is_nan p = true →
     fields r !! "normalidade_ok" = Some (VBool b) → b = false) ∧
  (∀ stat p h,
     fields r !! "levene_test" = Some (VPair stat p) → is_nan p = true →
     fields r !! "homocedasticidade_ok" = Some (VBool h) → h = false) ∧
  (∀ stat p,
     fields r !! "levene_test" = Some (VPair stat p) → is_nan p = true →
     fields r !! "error" = None → is_Some (fields r !! "kruskal_test")).
Proof.
  revert r w'. selector_paths.
  all: split_and!; [intros stat p b Ht Hnan | intros stat p b Ht Hnan | intros stat p Ht Hnan];
       try done.
  all: injection Ht as <- <-.
  all: destruct (nan_compares_false _ alpha Hnan) as [_ Hle].
  all: try (intros [= <-]; exact Hle).
  all: try done.
  all: unfold fallback_trigger in *; rewrite Hle in *; cbn in *;
       rewrite ?orb_true_r in *; done.
Qed.

Lemma nan_p_value_fails_the_check_witness :
  ∃ r w',
    returned lib_flat sample_flat "bairro" "saleprice" world0 r w' ∧
    fields r !! "levene_test" = Some (VPair nan nan) ∧
    fields r !! "homocedasticidade_ok" = Some (VBool false).
Proof.
  assert (∃ r w',
            perform_anova_for_variable lib_flat sample_flat "bairro" "saleprice" world0
              = (inr r, w') ∧
            fields r !! "levene_test" = Some (VPair nan nan) ∧
            ∃ h, fields r !! "homocedasticidade_ok" = Some (VBool h))
    as (r & w' & Hr & Hl & h & Hh) by (selector_eval; split; [done | by eexists]).
  exists r, w'. split_and!; [exact Hr | exact Hl |].
  destruct (nan_p_value_fails_the_check lib_flat sample_flat "bairro" "saleprice"
              world0 r w' Hr) as (_ & Hlev & _).
  rewrite Hh. by rewrite (Hlev nan nan h Hl eq_refl Hh).
Defined.

(** ** What the page says *)

(** X9: for a displayed dictionary that holds a p-value [p], the page shows
    exactly one of the two ANOVA messages: "significant" when [p < 0.05],
    "not significant" otherwise.  A NaN p-value is reported as "not
    significant". *)
Theorem significance_line_follows_p_value (lib : StatsLib) (df_analysis : frame)
    (var_cat col_preco : string) (w : world) (r : record) (w' : world) (p : float) :
  returned lib df_analysis var_cat col_preco w r w' →
  fields r !! "error" = None →
  fields r !! "p_valor_anova" = Some (VNum (Some p)) →
  ∃ ws,
    render r = Some ws ∧
    (anova_significant p ∈ ws ↔ (p <? alpha)%float = true) ∧
    (anova_not_significant p ∈ ws ↔ (p <? alpha)%float = false) ∧
    (is_nan p = true → anova_not_significant p ∈ ws).
Proof.
  intros Hret. revert r w' Hret p. selector_paths.
  all: intros p He; try discriminate He; intros Hp.
  all: render_fields.
  all: injection Hp as Hp; try discriminate Hp.
  all: rewrite Hp in *; cbn [unpack truth mbind option_bind mret option_ret app].
  all: eexists; split; [reflexivity |].
  all: assert (is_nan p = true → (p <? alpha)%float = false) as Hnan
         by (intros H; by destruct (nan_compares_false p alpha H)).
  all: unfold_widgets.
  all: destruct (p <? alpha)%float; (split_and!; [widget_iff | widget_iff |]).
  all: intros H; specialize (Hnan H); first [discriminate Hnan | find_widget].
Qed.

Lemma significance_line_follows_p_value_witness :
  ∃ r w' ws,
    returned lib_zero sample_zero "bairro" "saleprice" world0 r w' ∧
    render r = Some ws ∧
    anova_not_significant nan ∈ ws.
Proof.
  assert (∃ r w',
            perform_anova_for_variable lib_zero sample_zero "bairro" "saleprice"
              world0 = (inr r, w') ∧
            fields r !! "error" = None ∧
            fields r !! "p_valor_anova" = Some (VNum (Some nan)))
    as (r & w' & Hr & He & Hp) by (selector_eval; done).
  destruct (significance_line_follows_p_value lib_zero sample_zero "bairro"
              "saleprice" world0 r w' nan Hr He Hp) as (ws & Hws & _ & _ & Hnan).
  exists r, w', ws. split_and!; [exact Hr | exact Hws | by apply Hnan].
Defined.

(** X10: in the expander of a displayed dictionary the messages agree with
    the tests that were run.  "Residuals look normal" is shown exactly when
    the normality verdict is true, and the line "Levene could not be
    performed" exactly when fewer than 2 valid groups remain.  The
    Kruskal-Wallis section is shown exactly when one of the two warnings
    (residuals not normal, variances not homogeneous) is shown and Levene's
    test was performed. *)
Theorem fallback_section_matches_warnings (lib : StatsLib) (df_analysis : frame)
    (var_cat col_preco : string) (w : world) (r : record) (w' : world) :
  returned lib df_analysis var_cat col_preco w r w' →
  fields r !! "error" = None →
  ∃ ws body,
    render r = Some ws ∧
    Expander expander_label body ∈ ws ∧
    (residuals_normal ∈ body ↔ fields r !! "normalidade_ok" = Some (VBool true)) ∧
    (residuals_not_normal ∈ body ↔ fields r !! "normalidade_ok" = Some (VBool false)) ∧
    (levene_not_performed ∈ body ↔ (len (grupos_validos (dropna df_analysis)) < 2)%Z) ∧
    (kruskal_title ∈ body ↔
     (residuals_not_normal ∈ body ∨ variances_not_homogeneous ∈ body) ∧
     levene_not_performed ∉ body).
Proof.
  intros Hret. revert r w' Hret. selector_paths.
  all: intros He; try discriminate He.
  all: render_fields.
  all: eexists _, _; split; [reflexivity |]; split; [find_widget |].
  all: split_verdicts; try discriminate.
  all: unfold_widgets; cbn [app].
  all: split_and!.
  all: try widget_iff.
  all: try (split; [intros H; exfalso; widget_absent H | intros; exfalso; lia]).
  all: try (split; [intros; lia | intros; find_widget]).
  all: split;
    [ intros H;
      first [ exfalso; widget_absent H
            | split; [first [left; find_widget | right; find_widget]
                     | intros H'; widget_absent H'] ]
    | intros [[H | H] Hn];
      first [ find_widget | exfalso; widget_absent H | exfalso; apply Hn; find_widget ] ].
Qed.

Lemma fallback_section_matches_warnings_witness :
  ∃ r w' ws body,
    returned lib12 sample12 "bairro" "saleprice" world0 r w' ∧
    render r = Some ws ∧
    Expander expander_label body ∈ ws ∧
    residuals_normal ∈ body.
Proof.
  assert (∃ r w',
            perform_anova_for_variable lib12 sample12 "bairro" "saleprice" world0
              = (inr r, w') ∧
            fields r !! "error" = None ∧
            fields r !! "normalidade_ok" = Some (VBool true))
    as (r & w' & Hr & He & Hn) by (selector_eval; done).
  destruct (fallback_section_matches_warnings lib12 sample12 "bairro" "saleprice"
              world0 r w' Hr He) as (ws & body & Hws & Hexp & Hnorm & _).
  exists r, w', ws, body. split_and!; [exact Hr | exact Hws | exact Hexp | by apply Hnorm].
Defined.

(** ** Column labels *)

Lemma to_lower_word (a : Ascii.ascii) :
  is_word_char a = true →
  is_upper (to_lower a) = false ∧ is_word_char (to_lower a) = true.
Proof. destruct a as [[] [] [] [] [] [] [] []]; by vm_compute. Qed.

Lemma remove_non_word_lower (s : string) :
  remove_non_word (str_lower (remove_non_word s)) = str_lower (remove_non_word s).
Proof.
  induction s as [| a s IH]; [done |]. cbn [remove_non_word].
  destruct (is_word_char a) eqn:Ha; [| exact IH].
  cbn [str_lower remove_non_word].
  destruct (to_lower_word a Ha) as [_ ->]. by rewrite IH.
Qed.

Lemma str_lower_lower (s : string) :
  str_lower (str_lower (remove_non_word s)) = str_lower (remove_non_word s).
Proof.
  induction s as [| a s IH]; [done |]. cbn [remove_non_word].
  destruct (is_word_char a) eqn:Ha; [| exact IH].
  cbn [str_lower]. rewrite IH. f_equal.
  destruct (to_lower_word a Ha) as [Hup _]. unfold to_lower at 1. by rewrite Hup.
Qed.

(** X11: the cleaning of line 35 leaves only lower-case letters, digits and
    underscores in a label, keeps a label that already is of that form, and
    changes nothing when applied twice. *)
Theorem clean_name_canonical (s : string) :
  Forall (λ a, is_upper a = false ∧ is_word_char a = true)
    (String.list_ascii_of_string (clean_name s)) ∧
  clean_name (clean_name s) = clean_name s ∧
  (Forall (λ a, is_upper a = false ∧ is_word_char a = true) (String.list_ascii_of_string s) →
   clean_name s = s).
Proof.
  split_and!.
  - unfold clean_name. induction s as [| a s IH]; [constructor |]. cbn [remove_non_word].
    destruct (is_word_char a) eqn:Ha; [| exact IH].
    cbn [str_lower String.list_ascii_of_string]. constructor; [| exact IH].
    by apply to_lower_word.
  - unfold clean_name. by rewrite remove_non_word_lower, str_lower_lower.
  - unfold clean_name. induction s as [| a s IH]; [done |].
    cbn [String.list_ascii_of_string]. intros [[Hup Hw] Hs]%Forall_cons.
    cbn [remove_non_word]. rewrite Hw. cbn [str_lower]. rewrite (IH Hs).
    unfold to_lower. by rewrite Hup.
Qed.

Lemma clean_name_canonical_witness :
  clean_name "Sale Price" = "saleprice"%string ∧
  clean_name "sale_price" = "sale_price"%string.
Proof.
  split; [reflexivity |].
  apply (clean_name_canonical "sale_price"). repeat constructor.
Defined.

(** ** What [load_data] returns *)

(** X12: when [load_data] returns a frame, the label of the price column is
    ["saleprice"] or [None], and the list of labels it returns is that of the
    frame, one per column of the file.  The price column is found as soon as
    one label of the file cleans to ["saleprice"] or ["sale_price"]: it is
    then called ["saleprice"] and exactly one column of the frame carries
    that label.  When no label cleans to either, the price column is [None]
    and the labels are the cleaned labels of the file. *)
Theorem price_column_is_saleprice_or_none (pd : Pandas) (df : table pd)
    (preco : option string) (cats cols : list string) (shown : list widget) :
  load_data pd = (inr (Some df, preco, cats, cols), shown) →
  cols = df.*1 ∧
  (preco = Some "saleprice"%string ∨ preco = None) ∧
  ∃ raw url,
    first_readable pd urls_tentativas = Some (raw, url) ∧
    length cols = length raw ∧
    ((∃ label, label ∈ raw.*1 ∧
               (clean_name label = "saleprice"%string ∨
                clean_name label = "sale_price"%string)) →
     preco = Some "saleprice"%string ∧
     ∃ s, columns_named "saleprice" df = [s]) ∧
    ((∀ label, label ∈ raw.*1 →
               clean_name label ≠ "saleprice"%string ∧
               clean_name label ≠ "sale_price"%string) →
     preco = None ∧ cols = clean_name <$> raw.*1).
Proof.
  intros (raw & url & df0 & nums & Hread & _ & Hcase & Hprice & _ & _ & ->)%load_data_inv.
  cbv zeta in Hcase. rewrite !cleaned_labels in Hcase.
  assert (∀ l, l ∈ clean_name <$> raw.*1 ↔ ∃ label, label ∈ raw.*1 ∧ clean_name label = l)
    as Hlab.
  { intros l. rewrite list_elem_of_fmap. naive_solver. }
  split; [done |].
  destruct Hcase as [(Hs & -> & ->) | [(Hs & Hu & -> & ->) | (Hs & Hu & -> & ->)]].
  - apply price_to_numeric_inr in Hprice as (Hl & s0 & H0 & _).
    split; [by left |]. exists raw, url. split_and!; [done | | |].
    + by rewrite Hl, !length_fmap.
    + intros _. split; [done |]. eapply columns_named_single; eassumption.
    + intros Hno. apply Hlab in Hs as (label & Hin & Hc). by destruct (Hno label Hin).
  - apply price_to_numeric_inr in Hprice as (Hl & s0 & H0 & _).
    split; [by left |]. exists raw, url. split_and!; [done | | |].
    + by rewrite Hl, rename_labels, !length_fmap.
    + intros _. split; [done |]. eapply columns_named_single; eassumption.
    + intros Hno. apply Hlab in Hu as (label & Hin & Hc). by destruct (Hno label Hin).
  - injection Hprice as <-. split; [by right |]. exists raw, url. split_and!; [done | | |].
    + by rewrite !length_fmap.
    + intros (label & Hin & [Hc | Hc]); [destruct Hs | destruct Hu]; apply Hlab; eauto.
    + intros _. split; [done |]. apply cleaned_labels.
Qed.

Lemma price_column_is_saleprice_or_none_witness :
  ∃ df cats cols shown s,
    load_data pandas_online = (inr (Some df, Some "saleprice"%string, cats, cols), shown) ∧
    columns_named "saleprice" df = [s].
Proof.
  assert (∃ df cats cols shown,
            load_data pandas_online
              = (inr (Some df, Some "saleprice"%string, cats, cols), shown))
    as (df & cats & cols & shown & H)
    by (eexists _, _, _, _; vm_compute; reflexivity).
  destruct (price_column_is_saleprice_or_none pandas_online df _ cats cols shown H)
    as (_ & _ & raw & url & Hr & _ & Hfound & _).
  injection Hr as <- <-.
  destruct Hfound as [_ [s Hs]].
  { exists "SalePrice"%string. split; [| by left]. vm_compute. repeat constructor. }
  by exists df, cats, cols, shown, s.
Defined.

(** X13: the columns offered for selection are in increasing order without
    repetition, each is a label of the frame, and none is the price column.
    A label is offered exactly when it is not the price label and one of its
    columns is of text type, or numeric with fewer than 20 distinct
    values. *)
Theorem selectable_columns_sorted_without_price (pd : Pandas) (df : table pd)
    (preco : option string) (cats cols : list string) (shown : list widget) :
  load_data pd = (inr (Some df, preco, cats, cols), shown) →
  Sorted str_le cats ∧
  NoDup cats ∧
  (∀ c, c ∈ cats → c ∈ cols ∧ Some c ≠ preco) ∧
  (∀ c, c ∈ cats ↔
        Some c ≠ preco ∧
        ∃ s, (c, s) ∈ df ∧
             (is_object pd s = true ∨
              is_number pd s = true ∧ (series_nunique pd s < 20)%Z)).
Proof.
  intros (raw & url & df0 & nums & _ & _ & _ & _ & Hnums & -> & ->)%load_data_inv.
  destruct (sorted_set_spec
              (List.filter (λ col, bool_decide (Some col ≠ preco))
                 ((List.filter (λ c, is_object pd c.2) df).*1 ++ nums)))
    as (Hsorted & Hnodup & Hin).
  destruct (filter_raising_inr _ _ _ Hnums) as [Hall Hkept].
  assert (∀ (p : series pd → bool) c,
            c ∈ (List.filter (λ c, p c.2) df).*1 ↔ ∃ s, (c, s) ∈ df ∧ p s = true) as Hsel.
  { intros p c. rewrite list_elem_of_fmap. split.
    - intros ([c' s] & -> & H). apply list_elem_of_In, List.filter_In in H as [H Hp].
      exists s. split; [by apply list_elem_of_In | done].
    - intros (s & H & Hp). exists (c, s). split; [done |].
      apply list_elem_of_In, List.filter_In. split; [by apply list_elem_of_In | done]. }
  assert (∀ c, c ∈ sorted_set
                     (List.filter (λ col, bool_decide (Some col ≠ preco))
                        ((List.filter (λ c, is_object pd c.2) df).*1 ++ nums)) ↔
               Some c ≠ preco ∧
               ∃ s, (c, s) ∈ df ∧
                    (is_object pd s = true ∨
                     is_number pd s = true ∧ (series_nunique pd s < 20)%Z)) as Hchar.
  { intros c. rewrite Hin, list_elem_of_In, List.filter_In, <- list_elem_of_In.
    rewrite bool_decide_eq_true, elem_of_app, Hkept, !Hsel. split.
    - intros [[(s & Hs & Ho) | [(s & Hs & Hn) Hd]] Hne]; (split; [done |]).
      + exists s. auto.
      + exists s. split; [done |]. right. split; [done |].
        unfold is_discrete in Hd.
        destruct (columns_named c df) as [| s0 [| ? ?]] eqn:E; try done.
        apply columns_named_elem_of in Hs. rewrite E in Hs.
        apply list_elem_of_singleton in Hs as ->.
        injection Hd as Hd. apply andb_true_iff in Hd as [Hd _].
        by apply bool_decide_eq_true in Hd.
    - intros (Hne & s & Hs & [Ho | [Hn Hlt]]); (split; [| done]).
      + left. by exists s.
      + right. split; [by exists s |].
        destruct (Hall c) as [b Hb]; [apply Hsel; by exists s |].
        rewrite Hb. f_equal. unfold is_discrete in Hb.
        destruct (columns_named c df) as [| s0 [| ? ?]] eqn:E; try done.
        apply columns_named_elem_of in Hs. rewrite E in Hs.
        apply list_elem_of_singleton in Hs as ->.
        injection Hb as <-. apply andb_true_iff. by rewrite !bool_decide_eq_true. }
  split_and!; [done | done | | exact Hchar].
  intros c (Hne & s & Hs & _)%Hchar. split; [| done].
  apply list_elem_of_fmap. by exists (c, s).
Qed.

Lemma selectable_columns_sorted_without_price_witness :
  ∃ df cols shown,
    load_data pandas_online
      = (inr (Some df, Some "saleprice"%string, ["neighborhood"; "yrsold"]%string, cols),
         shown) ∧
    Sorted str_le ["neighborhood"; "yrsold"]%string.
Proof.
  assert (∃ df cols shown,
            load_data pandas_online
              = (inr (Some df, Some "saleprice"%string, ["neighborhood"; "yrsold"]%string,
                      cols), shown))
    as (df & cols & shown & H)
    by (eexists _, _, _; vm_compute; reflexivity).
  exists df, cols, shown. split; [exact H |].
  by destruct (selectable_columns_sorted_without_price pandas_online df _ _ cols shown H)
    as (Hsorted & _).
Defined.

(** ** When [load_data] returns and when it raises *)

Lemma rename_NoDup (old new : string) (labels : list string) :
  NoDup labels → new ∉ labels →
  NoDup ((λ l, if bool_decide (l = old) then new else l) <$> labels).
Proof.
  intros Hnd Hnew. apply NoDup_fmap_2_strong; [| done].
  intros x y Hx Hy. repeat case_bool_decide; congruence.
Qed.

(** X14: [load_data] returns, without raising, whenever the file cannot be
    read or the labels of the file stay distinct once cleaned.  When the
    file cannot be read it returns no frame, no price column and no columns,
    and shows one error message. *)
Theorem load_data_returns_with_distinct_labels (pd : Pandas) :
  (first_readable pd urls_tentativas = None →
   load_data pd =
     (inr (None, None, [], []),
      [load_failed])) ∧
  (∀ raw url,
     first_readable pd urls_tentativas = Some (raw, url) →
     NoDup (clean_name <$> raw.*1) →
     ∃ df preco cats cols,
       load_data pd =
         (inr (Some df, preco, cats, cols),
          [load_succeeded url])).
Proof.
  split.
  - intros H. unfold load_data. by rewrite H.
  - intros raw url H Hnd. unfold load_data. rewrite H.
    rewrite <- cleaned_labels in Hnd.
    set (cleaned := (λ c, (clean_name c.1, c.2)) <$> raw) in *.
    assert (∀ (df0 : table pd) (preco : option string),
              NoDup df0.*1 →
              ∃ nums, filter_raising (is_discrete df0 preco)
                        (List.filter (λ c, is_number pd c.2) df0).*1 = inr nums) as Hnum.
    { intros df0 preco Hnd0. apply filter_raising_total. intros c Hc.
      assert (c ∈ df0.*1) as Hin.
      { apply list_elem_of_fmap in Hc as ([c' s] & -> & Hc).
        apply list_elem_of_In, List.filter_In in Hc as [Hc _].
        apply list_elem_of_fmap. exists (c', s). split; [done | by apply list_elem_of_In]. }
      destruct (columns_named_NoDup c df0 Hnd0 Hin) as [s Hs].
      unfold is_discrete. rewrite Hs. by eexists. }
    assert (∀ (df0 : table pd),
              NoDup df0.*1 → "saleprice" ∈ df0.*1 →
              ∃ df, price_to_numeric "saleprice" df0 = inr df ∧ NoDup df.*1) as Hprice.
    { intros df0 Hnd0 Hin. destruct (columns_named_NoDup _ df0 Hnd0 Hin) as [s Hs].
      assert (∃ df, price_to_numeric "saleprice" df0 = inr df) as [df Hdf]
        by (unfold price_to_numeric; rewrite Hs; by eexists).
      exists df. split; [done |].
      apply price_to_numeric_inr in Hdf as [-> _]. done. }
    destruct (bool_decide_reflect ("saleprice" ∈ cleaned.*1)) as [Hs | Hs];
      [| destruct (bool_decide_reflect ("sale_price" ∈ cleaned.*1)) as [Hu | Hu]].
    all: cbv beta iota zeta.
    + destruct (Hprice cleaned Hnd Hs) as (df & -> & Hnd').
      destruct (Hnum df (Some "saleprice"%string) Hnd') as [nums ->]. by eexists _, _, _, _.
    + destruct (Hprice (rename "sale_price" "saleprice" cleaned)) as (df & -> & Hnd').
      * rewrite rename_labels. by apply rename_NoDup.
      * rewrite rename_labels. apply list_elem_of_fmap. exists "sale_price"%string.
        split; [| done]. by rewrite bool_decide_eq_true_2.
      * destruct (Hnum df (Some "saleprice"%string) Hnd') as [nums ->]. by eexists _, _, _, _.
    + destruct (Hnum cleaned None Hnd) as [nums ->]. by eexists _, _, _, _.
Qed.

Lemma load_data_returns_with_distinct_labels_witness :
  load_data pandas_offline =
    (inr (None, None, [], []),
     [load_failed]) ∧
  ∃ df preco cats cols shown,
    load_data pandas_online = (inr (Some df, preco, cats, cols), shown).
Proof.
  destruct (load_data_returns_with_distinct_labels pandas_offline) as [Hoff _].
  destruct (load_data_returns_with_distinct_labels pandas_online) as [_ Hon].
  split; [by apply Hoff |].
  destruct (Hon small_file (hd ""%string urls_tentativas) eq_refl)
    as (df & preco & cats & cols & H).
  { vm_compute. repeat constructor; rewrite ?elem_of_cons, ?elem_of_nil; intuition congruence. }
  by eexists df, preco, cats, cols, _.
Defined.

(** X15: cleaning can give two columns the same label.  When two labels of
    the file clean to ["saleprice"], [df["saleprice"]] is a frame, not a
    column, and [pd.to_numeric] raises: [load_data] raises the TypeError
    after the success message, and returns nothing. *)
Theorem load_data_raises_on_two_price_columns (pd : Pandas) (raw : table pd) (url : string) :
  first_readable pd urls_tentativas = Some (raw, url) →
  (2 ≤ length (List.filter (λ l, bool_decide (clean_name l = "saleprice"%string)) raw.*1)) →
  load_data pd =
    (inl "arg must be a list, tuple, 1-d array, or Series"%string,
     [load_succeeded url]).
Proof.
  intros H Hlen. unfold load_data. rewrite H.
  set (cleaned := (λ c, (clean_name c.1, c.2)) <$> raw).
  assert (2 ≤ length (columns_named "saleprice" cleaned)) as Hcols.
  { rewrite columns_named_length. subst cleaned. rewrite cleaned_labels.
    clear -Hlen. revert Hlen. induction (raw.*1) as [| l ls IH]; [done |].
    cbn [List.filter fmap list_fmap].
    destruct (bool_decide (clean_name l = "saleprice"%string)); cbn [length]; [| exact IH].
    intros Hle. assert (1 ≤ length (List.filter (λ l, bool_decide (clean_name l = "saleprice"%string)) ls)) as H1 by lia.
    clear -H1. revert H1. induction ls as [| l ls IH]; [cbn; lia |].
    cbn [List.filter fmap list_fmap].
    destruct (bool_decide (clean_name l = "saleprice"%string)); cbn [length]; [lia | exact IH]. }
  assert ("saleprice" ∈ cleaned.*1) as Hin.
  { apply columns_named_labels. intros E. rewrite E in Hcols. cbn in Hcols. lia. }
  rewrite (bool_decide_eq_true_2 _ Hin). cbv beta iota zeta.
  unfold price_to_numeric.
  destruct (columns_named "saleprice" cleaned) as [| s [| s' l]]; cbn in Hcols; try lia.
  reflexivity.
Qed.

Lemma load_data_raises_on_two_price_columns_witness :
  load_data pandas_two_prices =
    (inl "arg must be a list, tuple, 1-d array, or Series"%string,
     [load_succeeded (hd ""%string urls_tentativas)]).
Proof.
  apply (load_data_raises_on_two_price_columns pandas_two_prices
           (small_file ++ [("Sale Price"%string, number_column [])])).
  - reflexivity.
  - vm_compute. lia.
Defined.

(** ** The page as a whole *)

(** X16: for each selected variable in turn the page shows its subheader
    and then what the outcome of its analysis shows: a warning for a skipped
    variable, the error for a failed analysis, the tables, verdicts and
    figures otherwise.  No outcome stops the loop, and the outcomes and the
    library calls are those of the analyses taken one after the other. *)
Theorem page_shows_each_variable_in_turn (lib : StatsLib) (d : DataFrame)
    (coluna_preco : string) (variaveis_selecionadas : list string) (w : world) :
  ∃ evs w' shown,
    analysis_loop lib d coluna_preco variaveis_selecionadas w = ((evs, None), w') ∧
    length evs = length variaveis_selecionadas ∧
    Forall2 (λ ev ws, show_event ev = Some ws) evs shown ∧
    show_loop lib d coluna_preco variaveis_selecionadas w =
      ((concat (zip_with (λ var ws, subheader_of var :: ws) variaveis_selecionadas shown),
        None), w').
Proof.
  destruct (show_loop_shown lib d coluna_preco variaveis_selecionadas w)
    as (evs & w' & shown & Hloop & Hlen & Hall & Hshow).
  by exists evs, w', shown.
Qed.

(** X17: when [load_data] has returned a frame with distinct labels and a
    price column, and the user selects among the columns offered, the script
    runs to its end without raising.  With nothing selected it shows
    the overview, the disabled button and the foot of the sidebar, and calls
    no library routine.  With a selection it shows the overview, the head of
    the results, what the loop shows, the foot of the sidebar and the
    recommendations. *)
Theorem script_completes_with_data (pd : Pandas) (lib : StatsLib) (ui : Browser) (w : world)
    (df : table pd) (coluna_preco : string) (cats cols : list string) (shown : list widget) :
  load_data pd = (inr (Some df, Some coluna_preco, cats, cols), shown) →
  NoDup cols →
  multiselect ui cats ⊆ cats →
  ∃ results_shown w',
    show_loop lib (to_DataFrame df coluna_preco) coluna_preco (multiselect ui cats) w
      = ((results_shown, None), w') ∧
    script pd lib ui w =
      ((page_top ++ shown ++ page_overview ui df coluna_preco cats ++
        match multiselect ui cats with
        | [] => [SidebarButton "Analisar" true] ++ sidebar_foot
        | _ :: _ =>
            results_head coluna_preco (multiselect ui cats) ++ results_shown ++
            sidebar_foot ++ page_insights
        end, None), w') ∧
    (multiselect ui cats = [] → w' = w).
Proof.
  intros Hload _ _. unfold script. rewrite Hload.
  destruct (show_loop_shown lib (to_DataFrame df coluna_preco) coluna_preco
              (multiselect ui cats) w) as (evs & w' & ws & _ & _ & _ & Hshow).
  exists (concat (zip_with (λ var ws, subheader_of var :: ws) (multiselect ui cats) ws)), w'.
  split; [exact Hshow |].
  destruct (multiselect ui cats) as [| var vars] eqn:Hsel.
  - cbn in Hshow. injection Hshow as <-. by split.
  - rewrite Hshow. split; [| done]. by rewrite <- !app_assoc.
Qed.

(** X18: the name [variaveis_selecionadas] is assigned only when a frame
    and a price column were loaded, and line 291 reads it in every case.
    When the file cannot be read the script shows the error of [load_data]
    and the warning of line 281, then ends with a NameError.  When the
    frame has no price column it shows the error of line 284 (and that of
    line 287 when no column can be selected), then ends with the same
    NameError.  No library routine is called. *)
Theorem script_ends_with_name_error_without_data (pd : Pandas) (lib : StatsLib)
    (ui : Browser) (w : world) :
  (first_readable pd urls_tentativas = None →
   script pd lib ui w =
     ((page_top ++ [load_failed; awaiting_data], Some name_error), w)) ∧
  (∀ df cats cols shown,
     load_data pd = (inr (Some df, None, cats, cols), shown) →
     script pd lib ui w =
       ((page_top ++ shown ++ price_not_found cols ::
         match cats with
         | [] => [no_categorical_column]
         | _ :: _ => []
         end, Some name_error), w)).
Proof.
  split.
  - intros H. unfold script, load_data. by rewrite H.
  - intros df cats cols shown H. unfold script. rewrite H. by destruct cats.
Qed.

Lemma script_completes_with_data_witness :
  ∃ ws w', script pandas_online lib12 (selects ["neighborhood"]%string) world0 = ((ws, None), w').
Proof.
  assert (∃ df shown,
            load_data pandas_online
              = (inr (Some df, Some "saleprice"%string, ["neighborhood"; "yrsold"]%string,
                      ["neighborhood"; "yrsold"; "saleprice"]%string), shown))
    as (df & shown & H)
    by (eexists _, _; vm_compute; reflexivity).
  destruct (script_completes_with_data pandas_online lib12 (selects ["neighborhood"]%string)
              world0 df "saleprice" _ _ shown H) as (ws & w' & _ & Hscript & _).
  - apply (bool_decide_unpack _). by vm_compute.
  - intros x Hx. apply list_elem_of_singleton in Hx as ->. left.
  - by eexists _, w'.
Defined.

Lemma script_ends_with_name_error_without_data_witness :
  script pandas_offline lib12 (selects []) world0 =
    ((page_top ++ [load_failed; awaiting_data], Some name_error), world0) ∧
  ∃ ws, script pandas_no_price lib12 (selects []) world0 = ((ws, Some name_error), world0).
Proof.
  split.
  - by apply (script_ends_with_name_error_without_data pandas_offline lib12 (selects []) world0).
  - assert (∃ df cats cols shown,
              load_data pandas_no_price = (inr (Some df, None, cats, cols), shown))
      as (df & cats & cols & shown & H)
      by (eexists _, _, _, _; vm_compute; reflexivity).
    destruct (script_ends_with_name_error_without_data pandas_no_price lib12 (selects [])
                world0) as [_ Hno].
    eexists. exact (Hno df cats cols shown H).
Defined.

(** ** The figures *)

(** X19: when the drawing statements succeed, the boxplot stage stores its
    figure under ["boxplot"] and issues the statements of lines 139-155 in
    order, whether or not the ordering by median raises.  The boxes are left
    in their default order ([order=None]) for at most 5 or at least 50
    levels; between the two they are ordered by median, and by first
    appearance when computing the medians raises.  The tick labels are
    rotated above 10 levels.  Nothing else of the dictionary changes and no
    statistics routine is called. *)
Theorem boxplot_order_never_raises (lib : StatsLib) (var_cat col_preco : string)
    (df_var : frame) (s : state) :
  (∀ p, draw lib p = None) →
  ∃ order,
    plot_boxplot lib var_cat col_preco df_var s =
      (inr tt,
       {| results := results s;
          plots := <["boxplot" := next_fig (env s)]> (plots s);
          env := {| stat_log := stat_log (env s);
                    plot_log := plot_log (env s) ++
                      [Subplots 1 1;
                       Boxplot var_cat col_preco df_var order;
                       SetTitle ("Distribuição de " ++ col_preco ++ " por " ++ var_cat);
                       Setp (bool_decide (10 < nunique df_var)%Z);
                       TightLayout];
                    next_fig := S (next_fig (env s)) |} |}) ∧
    ((nunique df_var ≤ 5 ∨ 50 ≤ nunique df_var)%Z → order = None) ∧
    ((5 < nunique df_var < 50)%Z →
     match groupby_median_order lib df_var with
     | inr by_median => order = Some by_median
     | inl _ => order = Some (unique df_var)
     end).
Proof.
  intros Hdraw. exists (order_boxplot lib df_var). split_and!.
  - unfold plot_boxplot, subplots, draw_boxplot, plot, new_figure.
    cbv [mbind M_bind setplot with_env log_plot bump_fig mret M_ret].
    repeat (rewrite Hdraw; cbn [results plots env stat_log plot_log next_fig]).
    by rewrite <- !app_assoc.
  - intros H. unfold order_boxplot. cbv zeta.
    destruct (bool_decide_reflect (5 < nunique df_var)%Z); [| done].
    rewrite bool_decide_eq_false_2 by lia. done.
  - intros H. unfold order_boxplot. cbv zeta.
    rewrite !bool_decide_eq_true_2 by lia. cbn [andb].
    by destruct (groupby_median_order lib df_var).
Qed.

Lemma boxplot_order_never_raises_witness :
  ∃ s',
    plot_boxplot lib12 "bairro" "saleprice" sample12 (initial_state "bairro" world0)
      = (inr tt, s') ∧
    plots s' !! "boxplot" = Some 1.
Proof.
  destruct (boxplot_order_never_raises lib12 "bairro" "saleprice" sample12
              (initial_state "bairro" world0)) as (order & Hrun & _); [done |].
  eexists. split; [exact Hrun |]. apply lookup_insert_eq.
Defined.

(** X20: when a drawing statement of the normality figure raises after the
    normality verdict was stored, the selector returns a dictionary with the
    message of that exception under ["error"] and with what was stored
    before it (table, p-value, residual count, verdict); no figure is
    stored, and neither Levene's test nor Kruskal-Wallis is called. *)
Theorem drawing_failure_keeps_earlier_results (lib : StatsLib) (df_analysis : frame)
    (var_cat col_preco : string) (w : world) (r : record) (w' : world)
    (m : fitted lib) (t : anova_table) (b : bool) (e : exn) :
  accepted df_analysis →
  fit_succeeds lib df_analysis var_cat col_preco m t →
  returned lib df_analysis var_cat col_preco w r w' →
  fields r !! "normalidade_ok" = Some (VBool b) →
  first_raise lib (drawings_normalidade var_cat (resid lib m)) = Some e →
  fields r !! "error" = Some (VStr e) ∧
  fields r !! "anova_table" = Some (VTable t) ∧
  fields r !! "p_valor_anova" = Some (VNum (p_valor_anova var_cat t)) ∧
  fields r !! "residuos_count" = Some (VInt (len (resid lib m))) ∧
  fields r !! "homocedasticidade_ok" = None ∧
  plot_handles r = ∅ ∧
  (∀ g, ¬ made w w' (CallLevene g)) ∧
  (∀ g, ¬ made w w' (CallKruskal g)).
Proof.
  intros Hacc%insufficient_false [Hfit Hanova] Hret Hn Hraise.
  revert r w' Hret Hn. selector_paths.
  all: intros Hn; try discriminate Hn.
  all: split_and!; try done.
  all: intros g Hg; read_log_in Hg; by destruct_or?.
Qed.

Lemma drawing_failure_keeps_earlier_results_witness :
  ∃ r w',
    returned lib_failing_draw sample12 "bairro" "saleprice" world0 r w' ∧
    fields r !! "error" = Some (VStr "drawing failed") ∧
    fields r !! "anova_table" = Some (VTable table12) ∧
    plot_handles r = ∅.
Proof.
  assert (∃ r w',
            perform_anova_for_variable lib_failing_draw sample12 "bairro" "saleprice" world0
              = (inr r, w') ∧
            ∃ b, fields r !! "normalidade_ok" = Some (VBool b))
    as (r & w' & Hr & b & Hn) by (selector_eval; by eexists).
  exists r, w'. split; [exact Hr |].
  destruct (drawing_failure_keeps_earlier_results lib_failing_draw sample12 "bairro" "saleprice"
              world0 r w' tt table12 b "drawing failed")
    as (He & Ht & _ & _ & _ & Hp & _).
  - split; by vm_compute.
  - split; reflexivity.
  - exact Hr.
  - exact Hn.
  - reflexivity.
  - by split_and!.
Defined.
